(** * Chat session and message synchronisation: ChatInterface.tsx

    A shallow embedding of the session logic of
    [frontend/src/components/ChatInterface.tsx]: the message timeline
    and its comparator, the send, load-history and delete handlers and
    the attachment intake.  React state is a record; an asynchronous
    handler is cut at its [await]s into the part that runs at once and
    the continuation that runs when the awaited calls have settled, the
    continuation keeping the values its closure captured; how the calls
    settle is an input of the continuation. *)

From Stdlib Require Import ZArith List String Ascii Bool Lia.
From Stdlib Require Import Permutation Sorted DecimalString.
Import ListNotations.
Local Open Scope string_scope.
Local Open Scope Z_scope.

Set Implicit Arguments.

(** ** JavaScript strings *)

Module JsString.

(** Truthiness of a [string | null | undefined] value. *)
Definition truthy (v : option string) : bool :=
  match v with
  | Some s => negb (s =? "")%string
  | None => false
  end.

(** [a || b] on such values. *)
Definition or_else (v : option string) (d : string) : string :=
  if truthy v then match v with Some s => s | None => d end else d.

(** [s.startsWith(p)] *)
Definition startsWith (p s : string) : bool := String.prefix p s.

(** [s.includes(p)] *)
Fixpoint includes (p s : string) : bool :=
  String.prefix p s ||
  match s with
  | EmptyString => false
  | String _ s' => includes p s'
  end.

(** White space and line terminators removed by [trim].  A character of
    a [string] stands for the code unit of its number, so the strings of
    the model are those of code units below 256; the members of the set
    among them are tab, line feed, vertical tab, form feed, carriage
    return, space and the no-break space U+00A0. *)
Definition is_space (c : ascii) : bool :=
  let n := nat_of_ascii c in
  ((9 <=? n)%nat && (n <=? 13)%nat) || (n =? 32)%nat || (n =? 160)%nat.

Fixpoint trimStart (s : string) : string :=
  match s with
  | String c s' => if is_space c then trimStart s' else s
  | EmptyString => EmptyString
  end.

(** Drops the trailing white space: a character survives when it is
    not a space or something that survives follows it. *)
Fixpoint trimEnd (s : string) : string :=
  match s with
  | EmptyString => EmptyString
  | String c s' =>
      match trimEnd s' with
      | EmptyString => if is_space c then EmptyString else String c EmptyString
      | t => String c t
      end
  end.

Definition trim (s : string) : string := trimEnd (trimStart s).

(** [s.split(sep)] for a one-character separator: [cur] is the piece
    being read, kept reversed. *)
Fixpoint split_aux (sep : ascii) (cur : list ascii) (s : string) : list string :=
  match s with
  | EmptyString => [string_of_list_ascii (rev cur)]
  | String c s' =>
      if Ascii.eqb c sep
      then string_of_list_ascii (rev cur) :: split_aux sep [] s'
      else split_aux sep (c :: cur) s'
  end.

Definition split (sep : ascii) (s : string) : list string := split_aux sep [] s.

(** Template literal [`msg-${n}`] of an integer. *)
Definition of_Z (n : Z) : string := NilZero.string_of_int (Z.to_int n).

End JsString.

(** ** Dates

    [new Date(s).getTime()] belongs to the platform.  The development is
    parametric in it (a [Variable] of the sections below, [None] standing
    for [NaN]).  [IsoDate.getTime] is a partial instance, used to run the
    model on examples: it reads a valid date written in the ECMAScript
    date-time string format with every field present and an explicit
    offset, [YYYY-MM-DDTHH:mm:ss(.sss)?(Z|+HH:mm|-HH:mm)], which is what
    [toISOString] writes.  On any other string it answers [None], where
    the platform may still read a date (dates without a time or without
    an offset, fractions of other lengths, hour 24, the formats and the
    normalisations an engine accepts of its own): the examples use it on
    strings of the form above only. *)

Module IsoDate.

Definition digit (c : ascii) : option Z :=
  let n := Z.of_nat (nat_of_ascii c) in
  if (48 <=? n) && (n <=? 57) then Some (n - 48) else None.

Fixpoint digits (k : nat) (acc : Z) (s : string) : option (Z * string) :=
  match k with
  | O => Some (acc, s)
  | S k' =>
      match s with
      | String c s' =>
          match digit c with
          | Some d => digits k' (10 * acc + d) s'
          | None => None
          end
      | EmptyString => None
      end
  end.

Definition lit (c : ascii) (s : string) : option string :=
  match s with
  | String c' s' => if Ascii.eqb c c' then Some s' else None
  | EmptyString => None
  end.

Definition is_leap (y : Z) : bool :=
  ((y mod 4 =? 0) && negb (y mod 100 =? 0)) || (y mod 400 =? 0).

Definition days_in_month (y m : Z) : Z :=
  if m =? 2 then (if is_leap y then 29 else 28)
  else if (m =? 4) || (m =? 6) || (m =? 9) || (m =? 11) then 30
  else 31.

(** Days from 1970-01-01 to the civil date [y-m-d] (proleptic
    Gregorian calendar). *)
Definition days_from_civil (y m d : Z) : Z :=
  let y' := if m <=? 2 then y - 1 else y in
  let era := y' / 400 in
  let yoe := y' - era * 400 in
  let mp := if m >? 2 then m - 3 else m + 9 in
  let doy := (153 * mp + 2) / 5 + d - 1 in
  let doe := yoe * 365 + yoe / 4 - yoe / 100 + doy in
  era * 146097 + doe - 719468.

(** Optional [.sss]. *)
Definition fraction (s : string) : option (Z * string) :=
  match lit "." s with
  | Some s' => digits 3 0 s'
  | None => Some (0, s)
  end.

(** [Z] or a signed [HH:mm]; the result is the offset in minutes and
    nothing may follow it. *)
Definition offset (s : string) : option Z :=
  match s with
  | String c s' =>
      if Ascii.eqb c "Z" then (if (s' =? "")%string then Some 0 else None)
      else
        let sign := if Ascii.eqb c "+" then Some 1
                    else if Ascii.eqb c "-" then Some (-1) else None in
        match sign, digits 2 0 s' with
        | Some sg, Some (hh, s1) =>
            match lit ":" s1 with
            | Some s2 =>
                match digits 2 0 s2 with
                | Some (mm, EmptyString) =>
                    if (hh <=? 23) && (mm <=? 59) then Some (sg * (hh * 60 + mm)) else None
                | _ => None
                end
            | None => None
            end
        | _, _ => None
        end
  | EmptyString => None
  end.

Definition bind {A B} (o : option A) (f : A -> option B) : option B :=
  match o with Some a => f a | None => None end.

Notation "' p <- o ;; k" := (bind o (fun p => k))
  (at level 61, p pattern, o at next level, right associativity).
Notation "x <- o ;; k" := (bind o (fun x => k))
  (at level 61, o at next level, right associativity).

(** Milliseconds since the epoch, [None] for an invalid date. *)
Definition getTime (s : string) : option Z :=
  '(y, s) <- digits 4 0 s ;;
  s <- lit "-" s ;;
  '(mo, s) <- digits 2 0 s ;;
  s <- lit "-" s ;;
  '(d, s) <- digits 2 0 s ;;
  s <- lit "T" s ;;
  '(h, s) <- digits 2 0 s ;;
  s <- lit ":" s ;;
  '(mi, s) <- digits 2 0 s ;;
  s <- lit ":" s ;;
  '(sec, s) <- digits 2 0 s ;;
  '(ms, s) <- fraction s ;;
  off <- offset s ;;
  if (1 <=? mo) && (mo <=? 12) && (1 <=? d) && (d <=? days_in_month y mo)
     && (h <=? 23) && (mi <=? 59) && (sec <=? 59)
  then Some ((((days_from_civil y mo d * 24 + h) * 60 + mi - off) * 60 + sec) * 1000 + ms)
  else None.

End IsoDate.

(** ** Array.prototype.sort

    The sort is modelled as the stable insertion sort on arrays: each
    element in turn is moved down from the right end of the sorted
    prefix for as long as [comparefn(earlier, element)] is positive.  A
    [NaN] answer ([None]) counts as [0].  With a consistent comparator
    every conforming sort returns this array.  With a comparator that is
    not consistent the order is left to the implementation by ECMAScript
    and the engines differ from one another and from this model in which
    pairs they compare and in which direction (V8 reverses an initial
    descending run and inserts the rest by bisection, asking
    [comparefn(element, earlier)]); what is proved of the result of a
    sort below either does not depend on the order (permutations,
    counts) or is a fact of this model. *)

Module JsArray.
Section Sort.
Variable A : Type.
Variable comparefn : A -> A -> option Z.

Definition order (a b : A) : Z :=
  match comparefn a b with Some v => v | None => 0 end.

(** [r] is the sorted prefix read from its last element to its first. *)
Fixpoint sift (element : A) (r : list A) : list A :=
  match r with
  | [] => [element]
  | tmp :: r' =>
      if order tmp element >? 0 then tmp :: sift element r' else element :: r
  end.

Definition sort (l : list A) : list A :=
  rev (fold_left (fun r element => sift element r) l []).

End Sort.
End JsArray.

(** ** Messages *)

(** [type: "user" | "ai"] *)
Inductive MessageType := TypeUser | TypeAi.

(** [content: string | { content: string; ... }]; an object without a
    textual [content] field is [Envelope None]. *)
Inductive Content :=
| Text (s : string)
| Envelope (inner : option string).

(** [role] is whatever the server sent on hydrated turns, so it is kept
    as the string it is ([None]: undefined). *)
Record Message := mkMessage {
  msg_id : string;
  msg_type : MessageType;
  msg_role : option string;
  msg_content : Content;
  msg_timestamp : string;
  msg_imageUrl : option string
}.

Definition role_is (r : string) (m : Message) : bool :=
  match msg_role m with
  | Some r' => (r' =? r)%string
  | None => false
  end.

Definition is_user : Message -> bool := role_is "user".
Definition is_assistant : Message -> bool := role_is "assistant".

(** What the bubble shows:
    [typeof msg.content === 'string' ? msg.content : msg.content?.content || ''] *)
Definition displayText (m : Message) : string :=
  match msg_content m with
  | Text s => s
  | Envelope inner => JsString.or_else inner ""
  end.

(** ** Timeline *)

Section Timeline.
Variable getTime : string -> option Z.

(** The comparator of both [setMessages] updaters of
    [handleSendMessage]. *)
Definition compareTurns (a b : Message) : option Z :=
  if (msg_timestamp a =? msg_timestamp b)%string
  then Some (if is_user a then -1 else 1)
  else
    match getTime (msg_timestamp a), getTime (msg_timestamp b) with
    | Some ta, Some tb => Some (ta - tb)
    | _, _ => None
    end.

(** [prev => [...prev, m].sort(compare)] *)
Definition appendSorted (m : Message) (prev : list Message) : list Message :=
  JsArray.sort compareTurns (prev ++ [m]).

(** The optimistic insert of the user turn and the reconciliation of
    the confirmed assistant turn are the same updater. *)
Definition insertOptimistic := appendSorted.
Definition reconcile := appendSorted.

Inductive TimelineOp :=
| InsertOptimistic (turn : Message)
| Reconcile (turn : Message).

Definition applyOp (t : list Message) (op : TimelineOp) : list Message :=
  match op with
  | InsertOptimistic m => insertOptimistic m t
  | Reconcile m => reconcile m t
  end.

Definition runOps (ops : list TimelineOp) (t : list Message) : list Message :=
  fold_left applyOp ops t.

End Timeline.

(** ** Session state *)

(** A settled promise. *)
Inductive Settled (A : Type) :=
| Resolved (value : A)
| Rejected (message : option string).
Arguments Resolved {A} value.
Arguments Rejected {A} message.

Record ImageData := mkImageData {
  base64 : string;
  image_type : string
}.

Record File := mkFile {
  file_type : string;
  file_size : Z
}.

(** Body of [POST /chat/send]; an absent key is [None]. *)
Record Payload := mkPayload {
  p_message : string;
  p_style : string;
  p_threadId : option string;
  p_imageBase64 : option string;
  p_imageType : option string
}.

(** What the component does to the outside, in the order it does it. *)
Inductive Effect :=
| Toast (title description : string) (destructive : bool)
| Fetch (method path : string) (body : option Payload)
| ReadAsDataURL (file : File)
| CreateObjectURL (file : File)
| ConsoleError (label : string).

Definition is_toast (e : Effect) : bool :=
  match e with Toast _ _ _ => true | _ => false end.
Definition is_fetch (e : Effect) : bool :=
  match e with Fetch _ _ _ => true | _ => false end.
Definition is_read (e : Effect) : bool :=
  match e with ReadAsDataURL _ => true | _ => false end.

(** The [useState] cells of the component, the [localStorage] slot
    ['currentThreadId'] and the log of effects. *)
Record State := mkState {
  messages : list Message;
  inputMessage : string;
  isLoading : bool;
  isLoadingMessages : bool;
  imagePreview : option string;
  imageData : option ImageData;
  uploadingImage : bool;
  style : string;
  currentThreadId : option string;
  showThreadList : bool;
  localStorage : option string;
  effects : list Effect
}.

Definition setMessages (f : list Message -> list Message) (s : State) : State :=
  mkState (f (messages s)) (inputMessage s) (isLoading s) (isLoadingMessages s)
    (imagePreview s) (imageData s) (uploadingImage s) (style s)
    (currentThreadId s) (showThreadList s) (localStorage s) (effects s).

Definition setInputMessage (v : string) (s : State) : State :=
  mkState (messages s) v (isLoading s) (isLoadingMessages s)
    (imagePreview s) (imageData s) (uploadingImage s) (style s)
    (currentThreadId s) (showThreadList s) (localStorage s) (effects s).

Definition setIsLoading (v : bool) (s : State) : State :=
  mkState (messages s) (inputMessage s) v (isLoadingMessages s)
    (imagePreview s) (imageData s) (uploadingImage s) (style s)
    (currentThreadId s) (showThreadList s) (localStorage s) (effects s).

Definition setIsLoadingMessages (v : bool) (s : State) : State :=
  mkState (messages s) (inputMessage s) (isLoading s) v
    (imagePreview s) (imageData s) (uploadingImage s) (style s)
    (currentThreadId s) (showThreadList s) (localStorage s) (effects s).

Definition setImagePreview (v : option string) (s : State) : State :=
  mkState (messages s) (inputMessage s) (isLoading s) (isLoadingMessages s)
    v (imageData s) (uploadingImage s) (style s)
    (currentThreadId s) (showThreadList s) (localStorage s) (effects s).

Definition setImageData (v : option ImageData) (s : State) : State :=
  mkState (messages s) (inputMessage s) (isLoading s) (isLoadingMessages s)
    (imagePreview s) v (uploadingImage s) (style s)
    (currentThreadId s) (showThreadList s) (localStorage s) (effects s).

Definition setUploadingImage (v : bool) (s : State) : State :=
  mkState (messages s) (inputMessage s) (isLoading s) (isLoadingMessages s)
    (imagePreview s) (imageData s) v (style s)
    (currentThreadId s) (showThreadList s) (localStorage s) (effects s).

Definition setShowThreadList (v : bool) (s : State) : State :=
  mkState (messages s) (inputMessage s) (isLoading s) (isLoadingMessages s)
    (imagePreview s) (imageData s) (uploadingImage s) (style s)
    (currentThreadId s) v (localStorage s) (effects s).

Definition emit (e : Effect) (s : State) : State :=
  mkState (messages s) (inputMessage s) (isLoading s) (isLoadingMessages s)
    (imagePreview s) (imageData s) (uploadingImage s) (style s)
    (currentThreadId s) (showThreadList s) (localStorage s) (effects s ++ [e]).

Definition toast (title description : string) (destructive : bool) : State -> State :=
  emit (Toast title description destructive).

Definition option_string_eqb (a b : option string) : bool :=
  match a, b with
  | Some x, Some y => (x =? y)%string
  | None, None => true
  | _, _ => false
  end.

(** The part of [loadMessages] that runs before its first await: it
    returns at once without a current thread id and raises
    [isLoadingMessages] otherwise. *)
Definition loadMessages_begin (s : State) : State :=
  if JsString.truthy (currentThreadId s) then setIsLoadingMessages true s else s.

(** [setCurrentThreadId(v)] together with the two effects that depend
    on [currentThreadId]: nothing happens when the value is the one
    already held; otherwise the value is mirrored into [localStorage]
    (removed when falsy) and [loadMessages] starts. *)
Definition setCurrentThreadId (v : option string) (s : State) : State :=
  if option_string_eqb v (currentThreadId s) then s
  else
    loadMessages_begin
      (mkState (messages s) (inputMessage s) (isLoading s) (isLoadingMessages s)
         (imagePreview s) (imageData s) (uploadingImage s) (style s)
         v (showThreadList s) (if JsString.truthy v then v else None) (effects s)).

(** [handleResize] of the mount effect: the thread list is open on a
    viewport of at least 768 pixels and closed on a narrower one. *)
Definition handleResize (innerWidth : Z) (s : State) : State :=
  setShowThreadList (768 <=? innerWidth) s.

(** First render on a viewport narrower than 768 pixels:
    [currentThreadId] is read from [localStorage], the mount effects
    write it back and start [loadMessages], and [handleResize] leaves
    the thread list closed. *)
Definition initialState (stored : option string) : State :=
  mkState [] "" false (JsString.truthy stored) None None false "Confident"
    stored false (if JsString.truthy stored then stored else None) [].

(** First render on a viewport of [innerWidth] pixels. *)
Definition mounted (innerWidth : Z) (stored : option string) : State :=
  handleResize innerWidth (initialState stored).

(** [styleMap[style] || 'confident'] *)
Definition styleMap (name : string) : option string :=
  if (name =? "Confident")%string then Some "confident"
  else if (name =? "Flirty")%string then Some "flirty"
  else if (name =? "Funny")%string then Some "funny"
  else if (name =? "Chill")%string then Some "smooth"
  else None.

Definition styleOf (s : State) : string :=
  JsString.or_else (styleMap (style s)) "confident".

Definition handleThreadSelect (threadId : string) (s : State) : State :=
  setShowThreadList false (setCurrentThreadId (Some threadId) s).

(** ** handleThreadDelete *)

Inductive DeleteOutcome :=
| DeleteTokenRejected (message : option string) (* [await getAuthToken()] threw *)
| DeleteTokenMissing                            (* it gave a falsy token *)
| DeleteFetchRejected (message : option string) (* [fetch] threw *)
| DeleteResponse (ok : bool).

Definition deleteRequest (threadId : string) : Effect :=
  Fetch "DELETE" ("/chat/threads/" ++ threadId) None.

(** [captured] is the state of the render whose handler was invoked: the
    closure reads [currentThreadId] from it, also after the awaits.  The
    result is the state and how the returned promise settles; the caller
    ([handleDeleteThread] of ThreadList.tsx) shows its error toast on a
    rejection. *)
Definition handleThreadDelete (captured : State) (threadId : string)
    (o : DeleteOutcome) (s : State) : State * Settled unit :=
  let failed := emit (ConsoleError "Error deleting thread:") in
  match o with
  | DeleteTokenRejected message => (failed s, Rejected message)
  | DeleteTokenMissing => (failed s, Rejected (Some "Not authenticated"))
  | DeleteFetchRejected message =>
      (failed (emit (deleteRequest threadId) s), Rejected message)
  | DeleteResponse ok =>
      let s1 := emit (deleteRequest threadId) s in
      if negb ok
      then (failed s1, Rejected (Some "Failed to delete thread"))
      else if option_string_eqb (currentThreadId captured) (Some threadId)
      then (setCurrentThreadId None (setMessages (fun _ => []) s1), Resolved tt)
      else (s1, Resolved tt)
  end.

(** ** loadMessages *)

(** [msg.timestamp] of an element of [data.messages], as the JSON of
    the answer has it. *)
Inductive RawTimestamp :=
| TimestampString (s : string)
| TimestampNull
| TimestampUndefined.            (* the key is absent *)

(** An element of [data.messages]. *)
Record RawMessage := mkRaw {
  raw_id : string;
  raw_role : option string;
  raw_content : Content;
  raw_timestamp : RawTimestamp
}.

Record LoadData := mkLoadData {
  ld_success : bool;
  ld_messages : option (list RawMessage)  (* [None]: not an array *)
}.

Inductive LoadOutcome :=
| LoadTokenRejected (message : option string)
| LoadFetchRejected (message : option string)
| LoadBodyRejected (status : Z) (message : option string) (* [response.json()] threw *)
| LoadResponse (status : Z) (data : LoadData).

Definition response_ok (status : Z) : bool := (200 <=? status) && (status <=? 299).

Definition loadRequest (threadId : string) : Effect :=
  Fetch "GET" ("/chat/threads/" ++ threadId ++ "/messages") None.

Section History.
(** [String.prototype.localeCompare] is the platform's collation. *)
Variable localeCompare : string -> string -> Z.

(** [`${msg.timestamp}`] *)
Definition template (v : RawTimestamp) : string :=
  match v with
  | TimestampString s => s
  | TimestampNull => "null"
  | TimestampUndefined => "undefined"
  end.

(** [msg.timestamp || now] *)
Definition timestampOr (v : RawTimestamp) (now : string) : string :=
  match v with
  | TimestampString s => JsString.or_else (Some s) now
  | TimestampNull | TimestampUndefined => now
  end.

Definition sortKey (m : RawMessage) : string :=
  template (raw_timestamp m) ++ "_" ++
  (if option_string_eqb (raw_role m) (Some "user") then "0" else "1").

(** The mapped element with its temporary [_sortKey]; [now] is the
    clock read for this element. *)
Definition formatMessage (now : string) (m : RawMessage) : Message * string :=
  (mkMessage (raw_id m)
     (if option_string_eqb (raw_role m) (Some "user") then TypeUser else TypeAi)
     (raw_role m) (raw_content m)
     (timestampOr (raw_timestamp m) now) None,
   sortKey m).

Fixpoint formatAll (clock : nat -> string) (i : nat) (l : list RawMessage)
  : list (Message * string) :=
  match l with
  | [] => []
  | m :: l' => formatMessage (clock i) m :: formatAll clock (S i) l'
  end.

(** [data.messages.map(...).sort(...)] and the removal of the key. *)
Definition hydrate (clock : nat -> string) (l : list RawMessage) : list Message :=
  map fst
    (JsArray.sort (fun a b => Some (localeCompare (snd a) (snd b)))
       (formatAll clock O l)).

(** What the [catch] block of [loadMessages] does with the message of
    the error. *)
Definition loadFailed (message : option string) (s : State) : State :=
  let s1 := emit (ConsoleError "Error loading messages:") s in
  let msg := JsString.or_else message "" in
  if JsString.includes "THREAD_NOT_FOUND" msg || JsString.includes "404" msg
  then setMessages (fun _ => []) s1
  else toast "Error" "Failed to load messages" true s1.

(** The rest of [loadMessages], run on the state [s] current when its
    awaits have settled; [threadId] is the (truthy) id the closure
    captured, which only the request uses. *)
Definition loadMessages_resume (threadId : string) (o : LoadOutcome)
    (clock : nat -> string) (s : State) : State :=
  let s' :=
    match o with
    | LoadTokenRejected message => loadFailed message s
    | LoadFetchRejected message => loadFailed message (emit (loadRequest threadId) s)
    | LoadBodyRejected status message =>
        let s1 := emit (loadRequest threadId) s in
        if status =? 404 then setMessages (fun _ => []) s1
        else if negb (response_ok status) then loadFailed (Some "Failed to load messages") s1
        else loadFailed message s1
    | LoadResponse status data =>
        let s1 := emit (loadRequest threadId) s in
        if status =? 404 then setMessages (fun _ => []) s1
        else if negb (response_ok status) then loadFailed (Some "Failed to load messages") s1
        else
          match ld_success data, ld_messages data with
          | true, Some l => setMessages (fun _ => hydrate clock l) s1
          | _, _ => setMessages (fun _ => []) s1
          end
    end in
  setIsLoadingMessages false s'.

End History.

(** ** handleSendMessage *)

(** [data.response]: the documented object, or a bare string. *)
Inductive ResponseValue :=
| ResponseObject (id : option string) (content : option Content) (timestamp : option string)
| ResponseText (text : string).

Record SendData := mkSendData {
  d_success : bool;
  d_response : option ResponseValue;
  d_message : option string;
  d_threadId : option string
}.

(** The value a rejected [await] hands to [catch (e: any)], as far as
    reading [e.message] goes: on [null] and [undefined] the read throws,
    on any other value it gives the message or [undefined].  [fetch] and
    [resp.json()] belong to the platform and reject with error objects,
    and so do the [throw new Error(...)] of the handler and the
    [TypeError] of a property read on a [null] body; [getAuthToken] is
    imported from outside the component and may reject with any value. *)
Inductive Thrown :=
| ThrownError (message : option string)
| ThrownNullish.

Inductive SendOutcome :=
| SendTokenRejected (e : Thrown)              (* [await getAuthToken()] threw *)
| SendTokenMissing                            (* it gave a falsy token *)
| SendFetchRejected (message : option string) (* [fetch] threw *)
| SendNotOk (errorData : Settled (option string))
    (* [!resp.ok]; [Resolved]: the [message] of the body, [Rejected]:
       [resp.json()] threw, or the body is [null] and reading its
       [message] threw *)
| SendBodyRejected (message : option string)
    (* on a 2xx answer [resp.json()] threw, or the body is [null] and
       reading [data.success] threw *)
| SendResponse (data : SendData).

Definition content_truthy (c : option Content) : bool :=
  match c with
  | Some (Text t) => negb (t =? "")%string
  | Some (Envelope _) => true
  | None => false
  end.

Definition response_truthy (r : option ResponseValue) : bool :=
  match r with
  | Some (ResponseObject _ _ _) => true
  | Some (ResponseText t) => negb (t =? "")%string
  | None => false
  end.

(** [data.success && data.response] *)
Definition confirmed (data : SendData) : bool :=
  d_success data && response_truthy (d_response data).

(** The assistant turn built from a truthy [data.response]; [nowMs] and
    [nowIso] are the readings of [Date.now()] and
    [new Date().toISOString()]. *)
Definition aiMessageOf (r : ResponseValue) (nowMs : Z) (nowIso : string) : Message :=
  match r with
  | ResponseObject id content timestamp =>
      mkMessage
        (JsString.or_else id ("msg-" ++ JsString.of_Z nowMs))
        TypeAi (Some "assistant")
        (match content with
         | Some c => if content_truthy content then c
                     else Envelope (match c with Text t => Some t | Envelope i => i end)
         | None => Envelope None
         end)
        (JsString.or_else timestamp nowIso)
        None
  | ResponseText t =>
      mkMessage ("msg-" ++ JsString.of_Z nowMs) TypeAi (Some "assistant")
        (Text t) nowIso None
  end.

Definition aiMessage (data : SendData) (nowMs : Z) (nowIso : string) : option Message :=
  match d_response data with
  | Some r => if confirmed data then Some (aiMessageOf r nowMs nowIso) else None
  | None => None
  end.

(** The request body built by the closure. *)
Definition payloadOf (captured : State) : Payload :=
  let attached :=
    match imageData captured with
    | Some img => JsString.truthy (Some (base64 img))
    | None => false
    end in
  mkPayload (inputMessage captured) (styleOf captured) (currentThreadId captured)
    (if attached then option_map base64 (imageData captured) else None)
    (if attached then option_map image_type (imageData captured) else None).

Definition sendRequest (captured : State) : Effect :=
  Fetch "POST" "/chat/send" (Some (payloadOf captured)).

(** The guard on the first line of [handleSendMessage]. *)
Definition sendRejected (s : State) : bool :=
  (((JsString.trim (inputMessage s) =? "")%string)
     && match imageData s with Some _ => false | None => true end)
  || negb (JsString.truthy (currentThreadId s)).

Definition userMessage (s : State) (nowMs : Z) (nowIso : string) : Message :=
  mkMessage ("msg-" ++ JsString.of_Z nowMs) TypeUser (Some "user")
    (Text (inputMessage s)) nowIso
    (if JsString.truthy (imagePreview s) then imagePreview s else None).

Section Send.
Variable getTime : string -> option Z.

(** The part of [handleSendMessage] that runs before its first await:
    [None] when the guard returns, otherwise the state with the
    optimistic turn, the cleared input and [isLoading] raised. *)
Definition handleSendMessage_begin (nowMs : Z) (nowIso : string) (s : State)
  : option State :=
  if sendRejected s then None
  else
    Some (setIsLoading true
           (setImagePreview None
             (setImageData None
               (setInputMessage ""
                 (setMessages (insertOptimistic getTime (userMessage s nowMs nowIso)) s))))).

(** The [finally] block. *)
Definition sendFinally (s : State) : State :=
  setIsLoading false (setImagePreview None (setImageData None (setInputMessage "" s))).

(** The [catch] block, given the message of the error, then [finally]. *)
Definition sendFailed (message : option string) (s : State) : State :=
  sendFinally
    (toast "Error" (JsString.or_else message "Unexpected error") true
       (emit (ConsoleError "Send message error:") s)).

(** The [catch] block on the value thrown, then [finally].  On [null] or
    [undefined] the argument of [toast] cannot be built ([e.message]
    throws a [TypeError]): the error is logged, no toast is shown,
    [finally] runs and the promise of the handler rejects. *)
Definition sendCaught (e : Thrown) (s : State) : State :=
  match e with
  | ThrownError message => sendFailed message s
  | ThrownNullish => sendFinally (emit (ConsoleError "Send message error:") s)
  end.

(** The rest of [handleSendMessage], run on the state [s] current when
    the awaits have settled; [captured] is the state of the render
    whose handler was invoked. *)
Definition handleSendMessage_resume (captured : State) (o : SendOutcome)
    (nowMs : Z) (nowIso : string) (s : State) : State :=
  match o with
  | SendTokenRejected e => sendCaught e s
  | SendTokenMissing => sendFailed (Some "Not authenticated") s
  | SendFetchRejected message => sendFailed message (emit (sendRequest captured) s)
  | SendNotOk (Rejected message) => sendFailed message (emit (sendRequest captured) s)
  | SendNotOk (Resolved message) =>
      sendFailed (Some (JsString.or_else message "Failed to send message"))
        (emit (sendRequest captured) s)
  | SendBodyRejected message => sendFailed message (emit (sendRequest captured) s)
  | SendResponse data =>
      let s1 := emit (sendRequest captured) s in
      match aiMessage data nowMs nowIso with
      | Some m =>
          let s2 := setMessages (reconcile getTime m) s1 in
          let s3 :=
            if JsString.truthy (d_threadId data)
               && negb (option_string_eqb (d_threadId data) (currentThreadId captured))
            then setCurrentThreadId (d_threadId data) s2
            else s2 in
          sendFinally s3
      | None =>
          sendFailed
            (Some (JsString.or_else (d_message data) "Failed to get response from server"))
            s1
      end
  end.

(** A send with nothing else happening in between. *)
Definition handleSendMessage (nowMs : Z) (nowIso : string) (o : SendOutcome)
    (nowMs' : Z) (nowIso' : string) (s : State) : State :=
  match handleSendMessage_begin nowMs nowIso s with
  | Some s1 => handleSendMessage_resume s o nowMs' nowIso' s1
  | None => s
  end.

End Send.

(** The remote call has failed: [fetch] threw, the answer was not a 2xx
    one, its body could not be read or was not a confirmed response. *)
Definition remoteCallFails (o : SendOutcome) : bool :=
  match o with
  | SendFetchRejected _ | SendNotOk _ | SendBodyRejected _ => true
  | SendResponse data => negb (confirmed data)
  | SendTokenRejected _ | SendTokenMissing => false
  end.

(** No remote call was made: there is no token, or [getAuthToken]
    rejected with an error whose message can be read. *)
Definition tokenFails (o : SendOutcome) : bool :=
  match o with
  | SendTokenMissing | SendTokenRejected (ThrownError _) => true
  | _ => false
  end.

(** The outcomes on which the send has failed, but for the one in which
    [getAuthToken] rejects with [null] or [undefined]. *)
Definition sendFails (o : SendOutcome) : bool :=
  remoteCallFails o || tokenFails o.

(** ** Attachment intake *)

Inductive ReadOutcome :=
| ReadLoaded (result : string)   (* [onload], [reader.result] *)
| ReadFailed.                    (* [onerror] *)

(** [result.split(',')[1] || ''] *)
Definition base64Of (result : string) : string :=
  JsString.or_else (nth_error (JsString.split "," result) 1) "".

Definition toBase64 (r : ReadOutcome) : Settled string :=
  match r with
  | ReadLoaded result => Resolved (base64Of result)
  | ReadFailed => Rejected None
  end.

Inductive Validation :=
| Accepted
| InvalidFileType
| FileTooLarge.

(** The two checks at the head of [handleFileChange]. *)
Definition validate (file : File) : Validation :=
  if negb (JsString.startsWith "image/" (file_type file)) then InvalidFileType
  else if file_size file >? 20 * 1024 * 1024 then FileTooLarge
  else Accepted.

(** [file] is [e.target.files?.[0]], [r] how the reader ends, [url] what
    [URL.createObjectURL] returns. *)
Definition handleFileChange (file : option File) (r : ReadOutcome) (url : string)
    (s : State) : State :=
  match file with
  | None => s
  | Some f =>
      match validate f with
      | InvalidFileType =>
          toast "Invalid file type"
            "Please upload an image file (JPEG, PNG, GIF, WEBP)" true s
      | FileTooLarge =>
          toast "File too large" "Maximum image size is 20MB" true s
      | Accepted =>
          let s1 := emit (ReadAsDataURL f) (setUploadingImage true s) in
          let s2 :=
            match toBase64 r with
            | Resolved b =>
                setImagePreview (Some url)
                  (emit (CreateObjectURL f)
                     (setImageData (Some (mkImageData b (file_type f))) s1))
            | Rejected _ =>
                toast "Error" "Failed to process image" true
                  (emit (ConsoleError "Error processing image:") s1)
            end in
          setUploadingImage false s2
      end
  end.

(** ** getOrCreateThread

    Defined in the component and called from nowhere in it. *)

Inductive VerifyOutcome :=
| VerifyRejected                 (* [fetch] threw *)
| VerifyResponse (ok : bool).

Inductive CreateOutcome :=
| CreateRejected (message : option string)
| CreateResponse (ok : bool) (threadId : Settled (option string)).

Definition verifyRequest (threadId : string) : Effect :=
  Fetch "GET" ("/chat/threads/" ++ threadId) None.

Definition createRequest (captured : State) : Effect :=
  Fetch "POST" "/chat/send"
    (Some (mkPayload "New chat started" (styleOf captured) None None None)).

Definition getOrCreateThread (captured : State) (v : VerifyOutcome)
    (c : CreateOutcome) (s : State) : State * Settled string :=
  let verified :=
    match currentThreadId captured with
    | Some id =>
        if JsString.truthy (Some id) then
          let s1 := emit (verifyRequest id) s in
          match v with
          | VerifyResponse true => inl (s1, id)
          | VerifyResponse false => inr (setCurrentThreadId None s1)
          | VerifyRejected =>
              inr (setCurrentThreadId None
                     (emit (ConsoleError "Error verifying thread:") s1))
          end
        else inr s
    | None => inr s
    end in
  match verified with
  | inl (s1, id) => (s1, Resolved id)
  | inr s1 =>
      let s2 := emit (createRequest captured) s1 in
      let failed message :=
        (toast "Error" "Failed to initialize chat thread" true
           (emit (ConsoleError "Error getting/creating thread:") s2),
         Rejected message) in
      match c with
      | CreateRejected message => failed message
      | CreateResponse true (Resolved (Some id)) =>
          if JsString.truthy (Some id)
          then (setCurrentThreadId (Some id) s2, Resolved id)
          else failed (Some "Failed to create a new thread")
      | CreateResponse true (Rejected message) => failed message
      | CreateResponse _ _ => failed (Some "Failed to create a new thread")
      end
  end.

(** ** Observations *)

Definition toasts (s : State) : nat := List.length (filter is_toast (effects s)).
Definition requests (s : State) : list Effect := filter is_fetch (effects s).
Definition reads (s : State) : list Effect := filter is_read (effects s).

(** [localStorage] holds the current thread id, or nothing when that id
    is falsy: what the mirroring effect maintains. *)
Definition mirrored (s : State) : Prop :=
  localStorage s = (if JsString.truthy (currentThreadId s) then currentThreadId s else None).

(** ** Outcomes and examples *)

Definition deleteFails (o : DeleteOutcome) : bool :=
  match o with
  | DeleteResponse ok => negb ok
  | _ => true
  end.

Definition rejected {A} (r : Settled A) : bool :=
  match r with Rejected _ => true | Resolved _ => false end.

(** The load did not end in a usable 2xx answer. *)
Definition loadFails (o : LoadOutcome) : bool :=
  match o with
  | LoadResponse status _ => negb (response_ok status)
  | _ => true
  end.

(** The history fetch answered 404. *)
Definition notFound (o : LoadOutcome) : bool :=
  match o with
  | LoadResponse status _ | LoadBodyRejected status _ => status =? 404
  | _ => false
  end.

Definition MiB : Z := 1024 * 1024.

Fixpoint has_char (c : ascii) (s : string) : bool :=
  match s with
  | EmptyString => false
  | String c' s' => Ascii.eqb c' c || has_char c s'
  end.

(** Number of turns of the timeline that carry the id [i]. *)
Definition copies (i : string) (t : list Message) : nat :=
  List.length (filter (fun m => (msg_id m =? i)%string) t).

(** A successful answer of [POST /chat/send] used in the examples. *)
Definition helloData (threadId : string) : SendData :=
  mkSendData true
    (Some (ResponseObject (Some "m1") (Some (Text "hello!"))
             (Some "2024-01-01T00:00:06.000Z")))
    None (Some threadId).

(** Collation by code unit, enough to run the examples. *)
Definition byteCompare (a b : string) : Z :=
  match String.compare a b with
  | Lt => -1
  | Eq => 0
  | Gt => 1
  end.

Definition noClock (_ : nat) : string := "2024-01-01T00:00:09.000Z".

Definition emptyHistory : LoadOutcome := LoadResponse 200 (mkLoadData true (Some [])).

(** The thread "t1" is selected, then "t2" before the history of "t1"
    has come back; the history of "t2" arrives (empty), the user types
    "hi" and sends it. *)
Definition switchedAndSent : State :=
  let s1 := handleThreadSelect "t1" (initialState None) in
  let s2 := handleThreadSelect "t2" s1 in
  let s3 := loadMessages_resume byteCompare "t2" emptyHistory noClock s2 in
  let s4 := setInputMessage "hi" s3 in
  match handleSendMessage_begin IsoDate.getTime 1704067205000
          "2024-01-01T00:00:05.000Z" s4 with
  | Some s5 => s5
  | None => s4
  end.

(** The user sends "hi" in "t1" and selects "t2" while the request is
    in flight; the (empty) history of "t2" arrives.  The first component
    is the state captured by the send, the second the state now. *)
Definition sentThenSwitched : State * State :=
  let s0 := setInputMessage "hi" (handleThreadSelect "t1" (initialState None)) in
  let s1 := match handleSendMessage_begin IsoDate.getTime 1704067205000
                    "2024-01-01T00:00:05.000Z" s0 with
            | Some s => s
            | None => s0
            end in
  let s2 := handleThreadSelect "t2" s1 in
  (s0, loadMessages_resume byteCompare "t2" emptyHistory noClock s2).

(** On a wide viewport, where the thread list stays in view, "t1" is
    selected and its (empty) history arrives.  The user asks for the
    delete of a thread: the handler of this render (first component)
    runs.  Before DELETE answers the user selects "t2", whose history
    arrives (empty), and the exchange "hi" / "hello!" takes place there;
    the second component is the state in which DELETE answers. *)
Definition switchedWhileDeleting : State * State :=
  let s1 := loadMessages_resume byteCompare "t1" emptyHistory noClock
              (handleThreadSelect "t1" (mounted 1280 None)) in
  let s2 := loadMessages_resume byteCompare "t2" emptyHistory noClock
              (handleThreadSelect "t2" s1) in
  let s3 := handleSendMessage IsoDate.getTime 1704067205000 "2024-01-01T00:00:05.000Z"
              (SendResponse (helloData "t2"))
              1704067206000 "2024-01-01T00:00:06.000Z" (setInputMessage "hi" s2) in
  (s1, s3).

(** The user sends "hi" in "t1" and, while the request is in flight
    (the text area is disabled, the upload button is not), picks an
    image.  The components are the state captured by the send, the state
    the send leaves before its first await, and the state now. *)
Definition attachedWhileSending : State * State * State :=
  let s0 := setInputMessage "hi" (handleThreadSelect "t1" (initialState None)) in
  let s1 := match handleSendMessage_begin IsoDate.getTime 1704067205000
                    "2024-01-01T00:00:05.000Z" s0 with
            | Some s => s
            | None => s0
            end in
  (s0, s1,
   handleFileChange (Some (mkFile "image/png" (19 * MiB)))
     (ReadLoaded "data:image/png;base64,AAAA") "blob:1" s1).

(** ** Order of the timeline *)

(** A reply placed before a prompt that carries the same timestamp. *)
Definition replyBeforePrompt (a u : Message) : Prop :=
  is_assistant a = true /\ is_user u = true /\ msg_timestamp a = msg_timestamp u.

(** No assistant turn of the timeline stands before a user turn sharing
    its timestamp. *)
Definition promptFirst (t : list Message) : Prop :=
  ForallOrdPairs (fun a b => ~ replyBeforePrompt a b) t.

Definition rank (m : Message) : Z := if is_user m then 0 else 1.

Section OrderDefinitions.
Variable getTime : string -> option Z.

(** The order by (instant, role): user turns first among the turns of
    one instant. *)
Definition turnLe (a b : Message) : Prop :=
  match getTime (msg_timestamp a), getTime (msg_timestamp b) with
  | Some ta, Some tb => ta < tb \/ (ta = tb /\ rank a <= rank b)
  | _, _ => False
  end.

(** The timestamps of [l] are valid dates, each instant spelled in one
    way only (as when all of them come from [toISOString]). *)
Definition canonical (l : list Message) : Prop :=
  (forall m, In m l -> getTime (msg_timestamp m) <> None) /\
  (forall a b, In a l -> In b l ->
     getTime (msg_timestamp a) = getTime (msg_timestamp b) ->
     msg_timestamp a = msg_timestamp b).

Definition turnGe (a b : Message) : Prop := turnLe b a.

Definition turnOf (op : TimelineOp) : Message :=
  match op with InsertOptimistic m | Reconcile m => m end.

End OrderDefinitions.

(** Two replies of one instant, the second written without its
    milliseconds, and a prompt typed at that very instant. *)
Definition firstReply : Message :=
  mkMessage "m1" TypeAi (Some "assistant") (Text "hello!")
    "2024-01-01T00:00:05.000Z" None.
Definition secondReply : Message :=
  mkMessage "m2" TypeAi (Some "assistant") (Text "anything else?")
    "2024-01-01T00:00:05Z" None.
Definition nextPrompt : Message :=
  mkMessage "msg-1704067205000" TypeUser (Some "user") (Text "yes")
    "2024-01-01T00:00:05.000Z" None.

(** In "t1" the user sends "hi" at 00:00:04.000 by the client clock and
    the answer comes stamped "2024-01-01T00:00:05Z" by the server; the
    user then sends "yes" at 00:00:05.000. *)
Definition answeredThenAsked : State :=
  let s0 := setInputMessage "hi" (handleThreadSelect "t1" (initialState None)) in
  let s1 := handleSendMessage IsoDate.getTime 1704067204000 "2024-01-01T00:00:04.000Z"
              (SendResponse
                 (mkSendData true
                    (Some (ResponseObject (Some "m1") (Some (Text "hello!"))
                             (Some "2024-01-01T00:00:05Z")))
                    None (Some "t1")))
              1704067204500 "2024-01-01T00:00:04.500Z" s0 in
  let s2 := setInputMessage "yes" s1 in
  match handleSendMessage_begin IsoDate.getTime 1704067205000
          "2024-01-01T00:00:05.000Z" s2 with
  | Some s => s
  | None => s2
  end.

(** * Proofs *)

(** Projections of updated states are computed by need, so that the
    fields that are not looked at are never built. *)
Ltac state_simpl :=
  lazy beta iota zeta delta
    [messages inputMessage isLoading isLoadingMessages imagePreview imageData
     uploadingImage style currentThreadId showThreadList localStorage effects
     toast emit setMessages setInputMessage setIsLoading setIsLoadingMessages
     setImagePreview setImageData setUploadingImage setShowThreadList
     toasts requests reads].

Ltac state_simpl_in H :=
  lazy beta iota zeta delta
    [messages inputMessage isLoading isLoadingMessages imagePreview imageData
     uploadingImage style currentThreadId showThreadList localStorage effects
     toast emit setMessages setInputMessage setIsLoading setIsLoadingMessages
     setImagePreview setImageData setUploadingImage setShowThreadList
     toasts requests reads] in H.

Lemma option_string_eqb_eq (a b : option string) :
  option_string_eqb a b = true <-> a = b.
Proof.
  destruct a as [x|], b as [y|]; simpl; split; intro H;
    try discriminate; try reflexivity.
  - apply String.eqb_eq in H. now subst.
  - inversion H. apply String.eqb_refl.
Qed.

Lemma option_string_eqb_neq (a b : option string) :
  option_string_eqb a b = false <-> a <> b.
Proof.
  rewrite <- option_string_eqb_eq. destruct (option_string_eqb a b); split; congruence.
Qed.

(** *** The sort returns a permutation of its input *)

Section SortPermutation.
Variable A : Type.
Variable comparefn : A -> A -> option Z.

Lemma sift_perm (x : A) (r : list A) :
  Permutation (JsArray.sift comparefn x r) (x :: r).
Proof.
  induction r as [|y r IH]; simpl.
  - apply Permutation_refl.
  - destruct (JsArray.order comparefn y x >? 0).
    + rewrite IH. apply perm_swap.
    + apply Permutation_refl.
Qed.

Lemma fold_sift_perm (l acc : list A) :
  Permutation (fold_left (fun r e => JsArray.sift comparefn e r) l acc) (l ++ acc).
Proof.
  revert acc. induction l as [|x l IH]; intro acc; simpl.
  - apply Permutation_refl.
  - rewrite IH. rewrite sift_perm. symmetry. apply Permutation_middle.
Qed.

Lemma sort_perm (l : list A) : Permutation (JsArray.sort comparefn l) l.
Proof.
  unfold JsArray.sort. rewrite <- Permutation_rev.
  rewrite fold_sift_perm. now rewrite app_nil_r.
Qed.
End SortPermutation.

Lemma appendSorted_perm getTime (m : Message) (t : list Message) :
  Permutation (appendSorted getTime m t) (t ++ [m]).
Proof. apply sort_perm. Qed.

Lemma or_else_nonempty (v : option string) (d : string) :
  d <> "" -> JsString.or_else v d <> "".
Proof.
  intro D. unfold JsString.or_else, JsString.truthy.
  destruct v as [x|]; [|exact D].
  destruct (x =? "")%string eqn:E; cbn [negb]; [exact D|].
  now apply String.eqb_neq in E.
Qed.

Section SendFacts.
Variable getTime : string -> option Z.

Lemma sendFailed_spec (message : option string) (s : State) :
  let s' := sendFailed message s in
  messages s' = messages s /\ toasts s' = S (toasts s) /\
  requests s' = requests s /\
  inputMessage s' = "" /\ imageData s' = None /\ imagePreview s' = None /\
  isLoading s' = false /\
  currentThreadId s' = currentThreadId s /\ localStorage s' = localStorage s.
Proof.
  unfold sendFailed, sendFinally. state_simpl.
  rewrite !filter_app, !length_app. cbn. rewrite !app_nil_r.
  repeat split; lia.
Qed.

Lemma sendFailed_toast (message : option string) (s : State) :
  filter is_toast (effects (sendFailed message s)) =
  (filter is_toast (effects s)
     ++ [Toast "Error" (JsString.or_else message "Unexpected error") true])%list.
Proof.
  unfold sendFailed, sendFinally. state_simpl.
  rewrite !filter_app. cbn. now rewrite app_nil_r.
Qed.

Lemma begin_spec (nowMs : Z) (nowIso : string) (s s1 : State) :
  handleSendMessage_begin getTime nowMs nowIso s = Some s1 ->
  sendRejected s = false /\
  messages s1 = insertOptimistic getTime (userMessage s nowMs nowIso) (messages s) /\
  effects s1 = effects s /\
  inputMessage s1 = "" /\ imageData s1 = None /\ imagePreview s1 = None /\
  isLoading s1 = true /\
  currentThreadId s1 = currentThreadId s /\ localStorage s1 = localStorage s.
Proof.
  unfold handleSendMessage_begin. destruct (sendRejected s); [discriminate|].
  intro H. injection H as <-. state_simpl. repeat split.
Qed.
End SendFacts.

(** *** The mirror of the thread id in [localStorage] is an invariant *)

Lemma setCurrentThreadId_spec (v : option string) (s : State) :
  mirrored s ->
  let s' := setCurrentThreadId v s in
  currentThreadId s' = v /\
  localStorage s' = (if JsString.truthy v then v else None) /\
  mirrored s' /\
  messages s' = messages s /\ effects s' = effects s /\
  inputMessage s' = inputMessage s /\ imageData s' = imageData s /\
  imagePreview s' = imagePreview s.
Proof.
  intro M. unfold setCurrentThreadId, loadMessages_begin, mirrored in *.
  destruct (option_string_eqb v (currentThreadId s)) eqn:E.
  - apply option_string_eqb_eq in E. subst v. cbn. repeat split; assumption.
  - cbn [currentThreadId].
    destruct (JsString.truthy v) eqn:T; state_simpl; rewrite ?T; repeat split.
Qed.

Lemma setCurrentThreadId_frame (v : option string) (s : State) :
  let s' := setCurrentThreadId v s in
  messages s' = messages s /\ effects s' = effects s /\
  inputMessage s' = inputMessage s /\ imageData s' = imageData s /\
  imagePreview s' = imagePreview s /\ isLoading s' = isLoading s.
Proof.
  unfold setCurrentThreadId, loadMessages_begin.
  destruct (option_string_eqb v (currentThreadId s)); [repeat split|].
  cbn [currentThreadId]. destruct (JsString.truthy v); state_simpl; repeat split.
Qed.

Lemma initialState_mirrored (stored : option string) : mirrored (initialState stored).
Proof. reflexivity. Qed.

(** The handlers keep the mirror. *)

Lemma handleThreadSelect_mirrored (threadId : string) (s : State) :
  mirrored s -> mirrored (handleThreadSelect threadId s).
Proof.
  intro M. destruct (setCurrentThreadId_spec (Some threadId) M) as (_ & _ & M' & _).
  exact M'.
Qed.

Lemma loadMessages_mirrored localeCompare (threadId : string) (o : LoadOutcome)
    (clock : nat -> string) (s : State) :
  mirrored s -> mirrored (loadMessages_resume localeCompare threadId o clock s).
Proof.
  intro M. unfold loadMessages_resume, loadFailed.
  destruct o as [m|m|status m|status data];
    repeat match goal with
           | |- context [if ?b then _ else _] => destruct b
           | |- context [match ld_messages ?d with _ => _ end] => destruct (ld_messages d)
           end; exact M.
Qed.

Lemma handleSendMessage_begin_mirrored getTime (nowMs : Z) (nowIso : string)
    (s s1 : State) :
  mirrored s -> handleSendMessage_begin getTime nowMs nowIso s = Some s1 -> mirrored s1.
Proof.
  intros M B. destruct (begin_spec _ _ _ _ B) as (_ & _ & _ & _ & _ & _ & _ & Hc & Hl).
  unfold mirrored. now rewrite Hc, Hl.
Qed.

Lemma handleThreadDelete_mirrored (captured : State) (threadId : string)
    (o : DeleteOutcome) (s : State) :
  mirrored s -> mirrored (fst (handleThreadDelete captured threadId o s)).
Proof.
  intro M. unfold handleThreadDelete.
  destruct o as [m| |m|[|]]; try exact M. cbn [negb].
  destruct (option_string_eqb _ _); [|exact M]. cbn [fst].
  set (s1 := setMessages (fun _ => []) (emit (deleteRequest threadId) s)).
  assert (M1 : mirrored s1) by exact M.
  destruct (setCurrentThreadId_spec None M1) as (_ & _ & M' & _). exact M'.
Qed.

Lemma handleFileChange_mirrored (file : option File) (r : ReadOutcome) (url : string)
    (s : State) :
  mirrored s -> mirrored (handleFileChange file r url s).
Proof.
  intro M. unfold handleFileChange. destruct file as [f|]; [|exact M].
  destruct (validate f); try exact M. destruct (toBase64 r); exact M.
Qed.

(** Recovery by [getOrCreateThread], were it called: the stale id "t1"
    fails its verification, a thread is created and "t2" becomes the
    current and the persisted id. *)
Example getOrCreateThread_recovers :
  let s := initialState (Some "t1") in
  let r := getOrCreateThread s (VerifyResponse false)
             (CreateResponse true (Resolved (Some "t2"))) s in
  snd r = Resolved "t2" /\
  currentThreadId (fst r) = Some "t2" /\ localStorage (fst r) = Some "t2" /\
  toasts (fst r) = 0%nat.
Proof. vm_compute. repeat split. Qed.

(** * Send *)

(** C3, as amended.  When send is invoked with no current thread id (the
    id is null or empty) the handler returns at its guard whatever the
    input holds: no turn is inserted, no request is issued, no thread is
    verified or created, and the state is left as it was. *)
Theorem send_without_thread_returns :
  forall getTime nowMs nowIso o nowMs' nowIso' s,
    JsString.truthy (currentThreadId s) = false ->
    handleSendMessage_begin getTime nowMs nowIso s = None /\
    handleSendMessage getTime nowMs nowIso o nowMs' nowIso' s = s.
Proof.
  intros getTime nowMs nowIso o nowMs' nowIso' s H.
  assert (G : handleSendMessage_begin getTime nowMs nowIso s = None).
  { unfold handleSendMessage_begin, sendRejected. rewrite H.
    now rewrite orb_true_r. }
  split; [exact G|]. unfold handleSendMessage. now rewrite G.
Qed.

Lemma send_without_thread_returns_witness :
  let s := setInputMessage "hi" (initialState None) in
  handleSendMessage_begin IsoDate.getTime 1704067205000 "2024-01-01T00:00:05.000Z" s = None /\
  handleSendMessage IsoDate.getTime 1704067205000 "2024-01-01T00:00:05.000Z"
    (SendResponse (helloData "t1")) 1704067206000 "2024-01-01T00:00:06.000Z" s = s.
Proof.
  apply (send_without_thread_returns IsoDate.getTime 1704067205000
           "2024-01-01T00:00:05.000Z" (SendResponse (helloData "t1"))
           1704067206000 "2024-01-01T00:00:06.000Z"
           (setInputMessage "hi" (initialState None))).
  reflexivity.
Defined.

(** C3 as stated fails: with the input "hi", no attachment and no
    current thread, a send whose request would have succeeded leaves the
    timeline empty and issues no request: the message is dropped. *)
Lemma send_without_thread_is_dropped :
  let s := setInputMessage "hi" (initialState None) in
  let s' := handleSendMessage IsoDate.getTime 1704067205000 "2024-01-01T00:00:05.000Z"
              (SendResponse (helloData "t1")) 1704067206000 "2024-01-01T00:00:06.000Z" s in
  JsString.trim (inputMessage s) = "hi" /\ currentThreadId s = None /\
  messages s' = [] /\ requests s' = [] /\ toasts s' = 0%nat /\
  currentThreadId s' = None /\ inputMessage s' = "hi".
Proof. vm_compute. repeat split. Qed.

(** A failed send seen from the state in which its continuation runs,
    whatever happened since the request left: the timeline is left as it
    is, one toast is added, the destructive "Error" toast, and the
    [finally] block clears the input and the attachment and lowers
    [isLoading]. *)
Lemma failed_resume_spec :
  forall getTime captured o nowMs nowIso s,
    sendFails o = true ->
    let s' := handleSendMessage_resume getTime captured o nowMs nowIso s in
    messages s' = messages s /\
    (exists description, description <> "" /\
       filter is_toast (effects s') =
       (filter is_toast (effects s) ++ [Toast "Error" description true])%list) /\
    inputMessage s' = "" /\ imageData s' = None /\ imagePreview s' = None /\
    isLoading s' = false /\
    currentThreadId s' = currentThreadId s /\ localStorage s' = localStorage s.
Proof.
  intros getTime captured o nowMs nowIso s F s'.
  assert (K : exists message s1,
             s' = sendFailed message s1 /\ messages s1 = messages s /\
             filter is_toast (effects s1) = filter is_toast (effects s) /\
             currentThreadId s1 = currentThreadId s /\
             localStorage s1 = localStorage s).
  { subst s'. unfold handleSendMessage_resume.
    destruct o as [[m|]| |m|[m|m]|m|data]; try discriminate F; cbn [sendCaught];
      try (eexists; eexists; (split; [reflexivity|]); state_simpl;
           rewrite ?filter_app; cbn; rewrite ?app_nil_r; repeat split; fail).
    unfold sendFails in F. cbn in F. rewrite orb_false_r in F.
    apply negb_true_iff in F. unfold aiMessage.
    destruct (d_response data) as [r|]; rewrite ?F;
      eexists; eexists; (split; [reflexivity|]); state_simpl;
      rewrite ?filter_app; cbn; rewrite ?app_nil_r; repeat split. }
  destruct K as (message & s1 & -> & Km & Kt & Kc & Kl).
  destruct (sendFailed_spec message s1) as (Fm & _ & _ & Fi & Fd & Fp & Fo & Fc & Fl).
  split; [congruence|]. split.
  - exists (JsString.or_else message "Unexpected error"). split.
    + apply or_else_nonempty. discriminate.
    + rewrite sendFailed_toast. now rewrite Kt.
  - repeat split; congruence.
Qed.

(** The one failing outcome that [failed_resume_spec] leaves out:
    [getAuthToken] rejects with [null] or [undefined].  No request is
    issued and no toast is shown; [finally] runs all the same. *)
Lemma nullish_rejection_shows_no_toast :
  forall getTime captured nowMs nowIso s,
    let s' := handleSendMessage_resume getTime captured
                (SendTokenRejected ThrownNullish) nowMs nowIso s in
    messages s' = messages s /\ toasts s' = toasts s /\ requests s' = requests s /\
    inputMessage s' = "" /\ imageData s' = None /\ imagePreview s' = None /\
    isLoading s' = false /\
    currentThreadId s' = currentThreadId s /\ localStorage s' = localStorage s.
Proof.
  intros getTime captured nowMs nowIso s.
  unfold handleSendMessage_resume, sendCaught, sendFinally. state_simpl.
  rewrite !filter_app. cbn. rewrite !app_nil_r. repeat split.
Qed.

(** C4.  Take a send that passes the guard and fails: the remote call
    fails ([fetch] throws, the answer is not a 2xx one, its body cannot
    be read or is not a confirmed response), or no call is made for want
    of a token.  In whatever state [s] the failure arrives, its
    continuation leaves the timeline as it is (no turn is rolled back:
    the optimistic user turn is there afterwards if it was there before),
    shows exactly one toast more, the destructive toast titled "Error"
    with a non-empty description, clears the input text, the pending
    attachment and its preview, lowers [isLoading], and leaves the
    current and the persisted thread id as they are.  When nothing
    happened in between ([s2]), the timeline holds the earlier turns and
    the optimistic turn only, and the toast is the only one added since
    the send began. *)
Theorem failed_send_keeps_optimistic_turn :
  forall getTime nowMs nowIso o nowMs' nowIso' s0 s1 s,
    handleSendMessage_begin getTime nowMs nowIso s0 = Some s1 ->
    sendFails o = true ->
    let u := userMessage s0 nowMs nowIso in
    let s' := handleSendMessage_resume getTime s0 o nowMs' nowIso' s in
    let s2 := handleSendMessage_resume getTime s0 o nowMs' nowIso' s1 in
    (messages s' = messages s /\
     (In u (messages s) -> In u (messages s')) /\
     (exists description, description <> "" /\
        filter is_toast (effects s') =
        (filter is_toast (effects s) ++ [Toast "Error" description true])%list) /\
     inputMessage s' = "" /\ imageData s' = None /\ imagePreview s' = None /\
     isLoading s' = false /\
     currentThreadId s' = currentThreadId s /\ localStorage s' = localStorage s) /\
    (In u (messages s2) /\
     Permutation (messages s2) (messages s0 ++ [u]) /\
     (exists description, description <> "" /\
        filter is_toast (effects s2) =
        (filter is_toast (effects s0) ++ [Toast "Error" description true])%list) /\
     toasts s2 = S (toasts s0) /\
     inputMessage s2 = "" /\ imageData s2 = None /\ imagePreview s2 = None /\
     isLoading s2 = false /\
     currentThreadId s2 = currentThreadId s0 /\ localStorage s2 = localStorage s0).
Proof.
  intros getTime nowMs nowIso o nowMs' nowIso' s0 s1 s B F u s' s2.
  destruct (begin_spec _ _ _ _ B) as (_ & Hm & He & _ & _ & _ & _ & Hc & Hl).
  split.
  - destruct (failed_resume_spec getTime s0 o nowMs' nowIso' s F)
      as (Fm & Ft & Fi & Fd & Fp & Fo & Fc & Fl).
    fold s' in Fm, Ft, Fi, Fd, Fp, Fo, Fc, Fl.
    split; [exact Fm|]. split; [now rewrite Fm|]. split; [exact Ft|].
    repeat split; assumption.
  - destruct (failed_resume_spec getTime s0 o nowMs' nowIso' s1 F)
      as (Fm & (d & Dn & Ft) & Fi & Fd & Fp & Fo & Fc & Fl).
    fold s2 in Fm, Ft, Fi, Fd, Fp, Fo, Fc, Fl.
    assert (P : Permutation (messages s2) (messages s0 ++ [u])).
    { rewrite Fm, Hm. apply appendSorted_perm. }
    rewrite He in Ft.
    split.
    { apply Permutation_in with (l := (messages s0 ++ [u])%list).
      - now symmetry.
      - apply in_or_app. right. now left. }
    split; [exact P|]. split; [exists d; now split|]. split.
    { unfold toasts. rewrite Ft, length_app. cbn. lia. }
    repeat split; congruence.
Qed.

Lemma failed_send_keeps_optimistic_turn_witness :
  let s0 := fst (fst attachedWhileSending) in
  let s1 := snd (fst attachedWhileSending) in
  let s := snd attachedWhileSending in
  let u := userMessage s0 1704067205000 "2024-01-01T00:00:05.000Z" in
  let s' := handleSendMessage_resume IsoDate.getTime s0 (SendNotOk (Resolved None))
              1704067206000 "2024-01-01T00:00:06.000Z" s in
  let s2 := handleSendMessage IsoDate.getTime 1704067205000 "2024-01-01T00:00:05.000Z"
              (SendNotOk (Resolved None)) 1704067206000 "2024-01-01T00:00:06.000Z" s0 in
  (imageData s = Some (mkImageData "AAAA" "image/png") /\
   imagePreview s = Some "blob:1" /\ isLoading s = true /\ messages s = [u]) /\
  (messages s' = messages s /\ In u (messages s') /\
   (exists description,
      filter is_toast (effects s') = [Toast "Error" description true]) /\
   inputMessage s' = "" /\ imageData s' = None /\ imagePreview s' = None /\
   isLoading s' = false /\
   currentThreadId s' = Some "t1" /\ localStorage s' = Some "t1") /\
  (In u (messages s2) /\ toasts s2 = 1%nat /\ isLoading s2 = false /\
   currentThreadId s2 = Some "t1" /\ localStorage s2 = Some "t1").
Proof.
  intros s0 s1 s u s' s2.
  assert (B : handleSendMessage_begin IsoDate.getTime 1704067205000
                "2024-01-01T00:00:05.000Z" s0 = Some s1) by reflexivity.
  destruct (failed_send_keeps_optimistic_turn IsoDate.getTime 1704067205000
              "2024-01-01T00:00:05.000Z" (SendNotOk (Resolved None))
              1704067206000 "2024-01-01T00:00:06.000Z" s0 (s1 := s1) s B eq_refl)
    as ((Hm & HIn & (d & _ & Ht) & Hi & Hd & Hp & Ho & Hc & Hl)
        & (HIn2 & _ & _ & Ht2 & _ & _ & _ & Ho2 & Hc2 & Hl2)).
  fold u s' in Hm, HIn, Ht, Hi, Hd, Hp, Ho, Hc, Hl.
  split; [repeat split|]. split.
  - split; [exact Hm|]. split; [apply HIn; left; reflexivity|].
    split; [exists d; rewrite Ht; reflexivity|]. repeat split; assumption.
  - repeat split; assumption.
Defined.

(** C9.  On a successful send whose answer carries a thread id (a
    non-empty one): if that id differs from the id the request was sent
    with, the current thread id becomes the returned id and
    [localStorage] holds it; if it is the same id, the current id and the
    persisted id are left as they are. *)
Theorem successful_send_rebinds_thread :
  forall getTime captured data m nowMs nowIso s tid,
    mirrored s ->
    aiMessage data nowMs nowIso = Some m ->
    d_threadId data = Some tid -> tid <> "" ->
    let s' := handleSendMessage_resume getTime captured (SendResponse data) nowMs nowIso s in
    (Some tid <> currentThreadId captured ->
       currentThreadId s' = Some tid /\ localStorage s' = Some tid) /\
    (Some tid = currentThreadId captured ->
       currentThreadId s' = currentThreadId s /\ localStorage s' = localStorage s).
Proof.
  intros getTime captured data m nowMs nowIso s tid M A T NE s'.
  assert (Tr : JsString.truthy (Some tid) = true).
  { cbn. apply negb_true_iff. now apply String.eqb_neq. }
  subst s'. unfold handleSendMessage_resume. rewrite A, T, Tr. cbn [andb].
  set (s2 := setMessages (reconcile getTime m) (emit (sendRequest captured) s)).
  assert (M2 : mirrored s2) by exact M.
  split; intro H.
  - apply option_string_eqb_neq in H. rewrite H. cbn [negb].
    destruct (setCurrentThreadId_spec (Some tid) M2) as (Hc & Hl & _).
    rewrite Tr in Hl. unfold sendFinally. state_simpl.
    state_simpl_in Hc. state_simpl_in Hl. now split.
  - apply option_string_eqb_eq in H. rewrite H. cbn [negb].
    unfold sendFinally. now state_simpl.
Qed.

Lemma successful_send_rebinds_thread_witness :
  let send s0 :=
    handleSendMessage IsoDate.getTime 1704067205000 "2024-01-01T00:00:05.000Z"
      (SendResponse (helloData "t1")) 1704067206000 "2024-01-01T00:00:06.000Z" s0 in
  let draft := setInputMessage "hi" (handleThreadSelect "draft" (initialState None)) in
  let same := setInputMessage "hi" (handleThreadSelect "t1" (initialState None)) in
  (currentThreadId draft = Some "draft" /\
   currentThreadId (send draft) = Some "t1" /\ localStorage (send draft) = Some "t1") /\
  (currentThreadId same = Some "t1" /\
   currentThreadId (send same) = Some "t1" /\ localStorage (send same) = Some "t1").
Proof.
  pose (begun s0 := match handleSendMessage_begin IsoDate.getTime 1704067205000
                            "2024-01-01T00:00:05.000Z" s0 with
                    | Some x => x
                    | None => s0
                    end).
  pose (draft := setInputMessage "hi" (handleThreadSelect "draft" (initialState None))).
  pose (same := setInputMessage "hi" (handleThreadSelect "t1" (initialState None))).
  assert (Md : mirrored (begun draft)) by reflexivity.
  assert (Ms : mirrored (begun same)) by reflexivity.
  assert (NE : "t1" <> "") by discriminate.
  assert (D : Some "t1" <> currentThreadId draft) by discriminate.
  destruct (successful_send_rebinds_thread IsoDate.getTime draft (helloData "t1")
              1704067206000 "2024-01-01T00:00:06.000Z" Md eq_refl eq_refl NE)
    as [Hdiff _].
  destruct (successful_send_rebinds_thread IsoDate.getTime same (helloData "t1")
              1704067206000 "2024-01-01T00:00:06.000Z" Ms eq_refl eq_refl NE)
    as [_ Hsame].
  split.
  - split; [reflexivity | exact (Hdiff D)].
  - split; [reflexivity | exact (Hsame eq_refl)].
Defined.

(** Every block of the send handler keeps [localStorage] the mirror of
    the current thread id. *)
Lemma handleSendMessage_resume_mirrored :
  forall getTime captured o nowMs nowIso s,
    mirrored s -> mirrored (handleSendMessage_resume getTime captured o nowMs nowIso s).
Proof.
  intros getTime captured o nowMs nowIso s M.
  unfold handleSendMessage_resume.
  destruct o as [[m|]| |m|[m|m]|m|data]; try exact M.
  destruct (aiMessage data nowMs nowIso) as [a|]; [|exact M].
  set (s2 := setMessages (reconcile getTime a) (emit (sendRequest captured) s)).
  assert (M2 : mirrored s2) by exact M.
  destruct (_ && _); [|exact M2].
  destruct (setCurrentThreadId_spec (d_threadId data) M2) as (Hc & Hl & M3 & _).
  exact M3.
Qed.

(** * Delete *)

(** What [handleThreadDelete] does, in every state [s] in which the
    answer arrives.  When the remote delete fails the promise handed to
    the caller is rejected and the timeline, the current thread id and
    the persisted id are unchanged.  When it succeeds the promise
    resolves, and the timeline and the ids are cleared exactly when the
    deleted id is the thread id the handler reads, that of the render in
    which it was invoked ([captured]); otherwise they are unchanged.
    The current thread id of [s] is not looked at. *)
Lemma handleThreadDelete_spec :
  forall captured threadId o s,
    mirrored s ->
    let s' := fst (handleThreadDelete captured threadId o s) in
    let r := snd (handleThreadDelete captured threadId o s) in
    (deleteFails o = true ->
       rejected r = true /\ messages s' = messages s /\
       currentThreadId s' = currentThreadId s /\ localStorage s' = localStorage s) /\
    (deleteFails o = false ->
       r = Resolved tt /\
       (currentThreadId captured = Some threadId ->
          messages s' = [] /\ currentThreadId s' = None /\ localStorage s' = None) /\
       (currentThreadId captured <> Some threadId ->
          messages s' = messages s /\
          currentThreadId s' = currentThreadId s /\ localStorage s' = localStorage s)).
Proof.
  intros captured threadId o s M s' r. subst s' r.
  destruct o as [m| |m|[|]]; cbn [handleThreadDelete deleteFails negb];
    (split; intro F; try discriminate F); try (cbn; repeat split; fail).
  split; [|split; intro H].
  - destruct (option_string_eqb _ _); reflexivity.
  - apply option_string_eqb_eq in H. rewrite H. cbn [fst snd].
    set (s1 := setMessages (fun _ => []) (emit (deleteRequest threadId) s)).
    assert (M1 : mirrored s1) by exact M.
    destruct (setCurrentThreadId_spec None M1) as (Hc & Hl & _ & Hm & _).
    cbn in Hl. repeat split; assumption.
  - apply option_string_eqb_neq in H. rewrite H. cbn. repeat split.
Qed.

(** With no render between the click and the answer the handler reads
    the current thread id: a failed delete of the current thread "t1"
    changes nothing, a successful one clears the timeline and the ids,
    and the successful delete of another thread changes nothing. *)
Lemma handleThreadDelete_spec_example :
  let s := handleThreadSelect "t1" (initialState None) in
  let failing := handleThreadDelete s "t1" (DeleteResponse false) s in
  let done := handleThreadDelete s "t1" (DeleteResponse true) s in
  let other := handleThreadDelete s "t9" (DeleteResponse true) s in
  (rejected (snd failing) = true /\ currentThreadId (fst failing) = Some "t1" /\
   localStorage (fst failing) = Some "t1") /\
  (snd done = Resolved tt /\ messages (fst done) = [] /\
   currentThreadId (fst done) = None /\ localStorage (fst done) = None) /\
  (snd other = Resolved tt /\ currentThreadId (fst other) = Some "t1" /\
   localStorage (fst other) = Some "t1").
Proof.
  pose (s := handleThreadSelect "t1" (initialState None)).
  assert (M : mirrored s) by reflexivity.
  destruct (handleThreadDelete_spec s "t1" (DeleteResponse false) M) as [Hf _].
  destruct (handleThreadDelete_spec s "t1" (DeleteResponse true) M) as [_ Hd].
  destruct (handleThreadDelete_spec s "t9" (DeleteResponse true) M) as [_ Ho].
  destruct (Hf eq_refl) as (R & _ & C & L).
  destruct (Hd eq_refl) as (R' & Hc & _).
  destruct (Hc eq_refl) as (Hm & C' & L').
  destruct (Ho eq_refl) as (R'' & _ & Hn).
  assert (N : currentThreadId s <> Some "t9") by discriminate.
  destruct (Hn N) as (_ & C'' & L'').
  repeat split; assumption.
Defined.

(** C8, on the input where the code departs from it.  The handler
    compares the deleted id with the [currentThreadId] of the render in
    which it was invoked, not with the thread that is current when
    DELETE answers.  The delete is asked for while "t1" is current, and
    "t2" is selected and used ("hi", "hello!") before the answer comes.
    A successful delete of "t1" then empties the timeline of "t2" and
    clears the current and the persisted id, although the deleted thread
    is not the current one; a successful delete of "t2" leaves the
    deleted thread current, with its timeline and its persisted id. *)
Theorem delete_clears_by_captured_thread_id :
  let captured := fst switchedWhileDeleting in
  let s := snd switchedWhileDeleting in
  let wiped := handleThreadDelete captured "t1" (DeleteResponse true) s in
  let kept := handleThreadDelete captured "t2" (DeleteResponse true) s in
  currentThreadId captured = Some "t1" /\
  (currentThreadId s = Some "t2" /\ localStorage s = Some "t2" /\
   map displayText (messages s) = ["hi"; "hello!"]) /\
  (snd wiped = Resolved tt /\ messages (fst wiped) = [] /\
   currentThreadId (fst wiped) = None /\ localStorage (fst wiped) = None) /\
  (snd kept = Resolved tt /\ map displayText (messages (fst kept)) = ["hi"; "hello!"] /\
   currentThreadId (fst kept) = Some "t2" /\ localStorage (fst kept) = Some "t2").
Proof. vm_compute. repeat split. Qed.

(** * Attachment intake *)

Lemma rejected_file_spec (f : File) (r : ReadOutcome) (url : string) (s : State) :
  validate f <> Accepted ->
  let s' := handleFileChange (Some f) r url s in
  requests s' = requests s /\ reads s' = reads s /\ toasts s' = S (toasts s) /\
  imageData s' = imageData s /\ imagePreview s' = imagePreview s.
Proof.
  intro V. unfold handleFileChange.
  destruct (validate f); [congruence| |];
    state_simpl; rewrite !filter_app, ?length_app; cbn;
    rewrite ?app_nil_r; repeat split; lia.
Qed.

Lemma validate_not_image (f : File) :
  JsString.startsWith "image/" (file_type f) = false -> validate f = InvalidFileType.
Proof. intro H. unfold validate. now rewrite H. Qed.

Lemma validate_too_large (f : File) :
  file_size f > 20 * MiB -> validate f <> Accepted.
Proof.
  intro H. unfold validate, MiB in *. destruct (negb _); [discriminate|].
  destruct (Z.gtb_spec (file_size f) (20 * 1024 * 1024)); [discriminate|lia].
Qed.

Lemma validate_image (f : File) :
  JsString.startsWith "image/" (file_type f) = true -> file_size f <= 20 * MiB ->
  validate f = Accepted.
Proof.
  intros H L. unfold validate, MiB in *. rewrite H. cbn [negb].
  destruct (Z.gtb_spec (file_size f) (20 * 1024 * 1024)); [lia|reflexivity].
Qed.

(** C6.  A file whose type does not start with [image/] is rejected
    whatever its size, and so is a file of more than 20 MiB; an image
    file of at most 20 MiB is accepted and read (a 19 MiB [image/png]
    is accepted, a 21 MiB one and a [text/plain] file of any size are
    not).  A rejected file adds one toast and neither a request nor a
    read of the file, and leaves the pending attachment as it was. *)
Theorem attachment_validation :
  forall f r url s,
    let s' := handleFileChange (Some f) r url s in
    let untouched :=
      requests s' = requests s /\ reads s' = reads s /\ toasts s' = S (toasts s) /\
      imageData s' = imageData s /\ imagePreview s' = imagePreview s in
    (JsString.startsWith "image/" (file_type f) = false ->
       validate f = InvalidFileType /\ untouched) /\
    (file_size f > 20 * MiB -> validate f <> Accepted /\ untouched) /\
    (JsString.startsWith "image/" (file_type f) = true -> file_size f <= 20 * MiB ->
       validate f = Accepted /\ reads s' = (reads s ++ [ReadAsDataURL f])%list /\
       requests s' = requests s) /\
    validate (mkFile "image/png" (19 * MiB)) = Accepted /\
    validate (mkFile "image/png" (21 * MiB)) = FileTooLarge /\
    (forall size, validate (mkFile "text/plain" size) = InvalidFileType).
Proof.
  intros f r url s s' untouched. subst untouched s'.
  split; [|split; [|split; [|split; [|split]]]].
  - intro H. pose proof (validate_not_image f H) as V. split; [exact V|].
    apply rejected_file_spec. congruence.
  - intro H. pose proof (validate_too_large f H) as V. split; [exact V|].
    now apply rejected_file_spec.
  - intros H L. pose proof (validate_image f H L) as V. split; [exact V|].
    unfold handleFileChange. rewrite V.
    destruct (toBase64 r); state_simpl; rewrite !filter_app; cbn;
      now rewrite ?app_nil_r.
  - reflexivity.
  - reflexivity.
  - reflexivity.
Qed.

Lemma attachment_validation_witness :
  let s := initialState (Some "t1") in
  let big := mkFile "image/png" (21 * MiB) in
  let text := mkFile "text/plain" 10 in
  let png := mkFile "image/png" (19 * MiB) in
  (validate text = InvalidFileType /\
   requests (handleFileChange (Some text) ReadFailed "blob:1" s) = requests s) /\
  (validate big <> Accepted /\
   reads (handleFileChange (Some big) ReadFailed "blob:1" s) = reads s) /\
  (validate png = Accepted /\
   reads (handleFileChange (Some png) (ReadLoaded "data:image/png;base64,AAAA") "blob:1" s)
   = [ReadAsDataURL png]).
Proof.
  pose (s := initialState (Some "t1")).
  destruct (attachment_validation (mkFile "text/plain" 10) ReadFailed "blob:1" s)
    as ((Vt & Rt & _) & _).
  { reflexivity. }
  destruct (attachment_validation (mkFile "image/png" (21 * MiB)) ReadFailed "blob:1" s)
    as (_ & (Vb & _ & Rb & _) & _).
  { reflexivity. }
  destruct (attachment_validation (mkFile "image/png" (19 * MiB))
              (ReadLoaded "data:image/png;base64,AAAA") "blob:1" s)
    as (_ & _ & Hp & _).
  destruct Hp as (Vp & Rp & _); [reflexivity | discriminate |].
  repeat split; assumption.
Defined.

(** * History *)

Section HistoryFacts.
Variable localeCompare : string -> string -> Z.

Lemma loadFailed_toasts (message : option string) (s : State) :
  (toasts s <= toasts (loadFailed message s) <= S (toasts s))%nat.
Proof.
  unfold loadFailed. destruct (_ || _); state_simpl;
    rewrite !filter_app, ?length_app; cbn; lia.
Qed.

Lemma loadMessages_toasts (threadId : string) (o : LoadOutcome)
    (clock : nat -> string) (s : State) :
  toasts (loadMessages_resume localeCompare threadId o clock s) <> toasts s ->
  loadFails o = true /\ notFound o = false.
Proof.
  unfold loadMessages_resume.
  destruct o as [m|m|status m|status data]; cbn [loadFails notFound];
    try (intros _; split; reflexivity).
  - destruct (status =? 404) eqn:E; [|intros _; split; reflexivity].
    state_simpl. rewrite !filter_app, ?length_app. cbn. intro H. exfalso. lia.
  - destruct (status =? 404) eqn:E.
    + state_simpl. rewrite !filter_app, ?length_app. cbn. intro H. exfalso. lia.
    + destruct (negb (response_ok status)); [intros _; split; reflexivity|].
      destruct (ld_success data), (ld_messages data);
        state_simpl; rewrite !filter_app, ?length_app; cbn; intro H; exfalso; lia.
Qed.
End HistoryFacts.

(** C7.  When the history fetch of a thread answers 404 the timeline
    becomes the empty list and no toast is added; and whenever a load
    adds a toast the load has failed and the answer was not a 404. *)
Theorem history_not_found_is_empty :
  forall localeCompare threadId o clock s,
    let s' := loadMessages_resume localeCompare threadId o clock s in
    (notFound o = true -> messages s' = [] /\ toasts s' = toasts s) /\
    (toasts s' <> toasts s -> loadFails o = true /\ notFound o = false).
Proof.
  intros localeCompare threadId o clock s s'. subst s'. split.
  - intro N. unfold loadMessages_resume.
    destruct o as [m|m|status m|status data]; cbn in N; try discriminate;
      rewrite N; state_simpl; rewrite !filter_app, ?length_app; cbn; split;
      try reflexivity; lia.
  - apply loadMessages_toasts.
Qed.

Lemma history_not_found_is_empty_witness :
  let s := handleThreadSelect "gone" (initialState None) in
  let s404 := loadMessages_resume byteCompare "gone" (LoadResponse 404 (mkLoadData false None)) noClock s in
  let s500 := loadMessages_resume byteCompare "gone" (LoadResponse 500 (mkLoadData false None)) noClock s in
  (messages s404 = [] /\ toasts s404 = toasts s) /\
  (toasts s500 = 1%nat /\ notFound (LoadResponse 500 (mkLoadData false None)) = false).
Proof.
  pose (s := handleThreadSelect "gone" (initialState None)).
  destruct (history_not_found_is_empty byteCompare "gone"
              (LoadResponse 404 (mkLoadData false None)) noClock s) as [H404 _].
  destruct (history_not_found_is_empty byteCompare "gone"
              (LoadResponse 500 (mkLoadData false None)) noClock s) as [_ H500].
  split; [exact (H404 eq_refl)|].
  split; [reflexivity|].
  refine (proj2 (H500 _)). discriminate.
Defined.

(** * Encoding *)

Lemma split_aux_no_sep (sep : ascii) (s : string) (cur : list ascii) :
  has_char sep s = false ->
  List.length (JsString.split_aux sep cur s) = 1%nat.
Proof.
  revert cur. induction s as [|c s IH]; intros cur H; cbn in *.
  - reflexivity.
  - apply orb_false_iff in H. destruct H as [Hc Hs]. rewrite Hc. now apply IH.
Qed.

Lemma base64Of_no_comma (result : string) :
  has_char "," result = false -> base64Of result = "".
Proof.
  intro H. unfold base64Of, JsString.split.
  pose proof (split_aux_no_sep "," result [] H) as L.
  destruct (JsString.split_aux "," [] result) as [|a [|b l]]; try discriminate L.
  reflexivity.
Qed.

(** C10, as amended.  On a file that was read and whose reader result
    holds no comma, [toBase64] resolves with the empty string; the
    attachment is stored with that empty payload, a send with a current
    thread passes the guard even with no text, and the request body then
    has neither [imageBase64] nor [imageType]: the keys are added for a
    non-empty payload only. *)
Theorem empty_payload_is_left_out :
  forall result f url s,
    has_char "," result = false ->
    validate f = Accepted ->
    let s' := handleFileChange (Some f) (ReadLoaded result) url s in
    toBase64 (ReadLoaded result) = Resolved "" /\
    imageData s' = Some (mkImageData "" (file_type f)) /\
    toasts s' = toasts s /\
    p_imageBase64 (payloadOf s') = None /\ p_imageType (payloadOf s') = None /\
    (JsString.truthy (currentThreadId s) = true -> sendRejected s' = false).
Proof.
  intros result f url s H V s'. subst s'.
  pose proof (base64Of_no_comma result H) as B.
  unfold handleFileChange. rewrite V. unfold toBase64, payloadOf. rewrite B.
  state_simpl. rewrite !filter_app, ?length_app. cbn.
  repeat split; try lia.
  intro T. unfold sendRejected. state_simpl. rewrite T.
  now rewrite andb_false_r.
Qed.

Lemma empty_payload_is_left_out_witness :
  let png := mkFile "image/png" (19 * MiB) in
  let s := handleFileChange (Some png) (ReadLoaded "AAAA") "blob:1"
             (handleThreadSelect "t1" (initialState None)) in
  toBase64 (ReadLoaded "AAAA") = Resolved "" /\
  imageData s = Some (mkImageData "" "image/png") /\
  p_imageBase64 (payloadOf s) = None /\ sendRejected s = false.
Proof.
  destruct (empty_payload_is_left_out "AAAA" (mkFile "image/png" (19 * MiB)) "blob:1"
              (handleThreadSelect "t1" (initialState None)) eq_refl eq_refl)
    as (B & D & _ & P & _ & G).
  split; [exact B|]. split; [exact D|]. split; [exact P|].
  apply G. reflexivity.
Defined.

(** C10 as stated fails: after reading a file whose result is "AAAA" (no
    comma) the pending attachment has the payload "", and the body of the
    send that follows has no [imageBase64] key at all, rather than one
    holding "". *)
Lemma empty_base64_is_not_carried :
  let png := mkFile "image/png" (19 * MiB) in
  let s := handleFileChange (Some png) (ReadLoaded "AAAA") "blob:1"
             (handleThreadSelect "t1" (initialState None)) in
  let s' := handleSendMessage IsoDate.getTime 1704067205000 "2024-01-01T00:00:05.000Z"
              (SendResponse (helloData "t1")) 1704067206000 "2024-01-01T00:00:06.000Z" s in
  option_map base64 (imageData s) = Some "" /\
  p_imageBase64 (payloadOf s) <> Some "" /\
  requests s' =
    [Fetch "POST" "/chat/send" (Some (mkPayload "" "confident" (Some "t1") None None))].
Proof.
  cbv zeta. split; [reflexivity|]. split; [discriminate|]. vm_compute. reflexivity.
Qed.

(** * Merging confirmations *)

Lemma copies_perm (i : string) (t t' : list Message) :
  Permutation t t' -> copies i t = copies i t'.
Proof.
  unfold copies. induction 1 as [|x l l' _ IH|x y l|l l' l'' _ IH1 _ IH2]; cbn.
  - reflexivity.
  - destruct (msg_id x =? i)%string; cbn; now rewrite IH.
  - destruct (msg_id x =? i)%string, (msg_id y =? i)%string; reflexivity.
  - now rewrite IH1.
Qed.

Lemma copies_snoc (m : Message) (t : list Message) :
  copies (msg_id m) (t ++ [m]) = S (copies (msg_id m) t).
Proof.
  unfold copies. rewrite filter_app, length_app. cbn.
  rewrite String.eqb_refl. cbn. lia.
Qed.

Lemma resume_confirmed_messages :
  forall getTime captured data m nowMs nowIso s,
    aiMessage data nowMs nowIso = Some m ->
    messages (handleSendMessage_resume getTime captured (SendResponse data) nowMs nowIso s)
    = reconcile getTime m (messages s).
Proof.
  intros getTime captured data m nowMs nowIso s A.
  unfold handleSendMessage_resume. rewrite A. unfold sendFinally.
  set (s2 := setMessages (reconcile getTime m) (emit (sendRequest captured) s)).
  destruct (_ && _).
  - state_simpl.
    destruct (setCurrentThreadId_frame (d_threadId data) s2) as (Hm & _).
    state_simpl_in Hm. exact Hm.
  - reflexivity.
Qed.

(** C5, as amended.  The merge of a confirmation appends: after a
    confirmed answer the timeline holds the turns it held and the
    confirmed turn, one turn more, whatever ids were there.  So the
    number of turns carrying the id of the confirmed turn grows by one
    each time (the same confirmation applied twice is there twice), and
    every turn present before, the optimistic one with its provisional
    id included, is still present. *)
Theorem confirmation_is_appended :
  forall getTime captured data m nowMs nowIso s,
    aiMessage data nowMs nowIso = Some m ->
    let t := messages s in
    let t' := messages (handleSendMessage_resume getTime captured (SendResponse data)
                          nowMs nowIso s) in
    Permutation t' (t ++ [m]) /\
    List.length t' = S (List.length t) /\
    copies (msg_id m) t' = S (copies (msg_id m) t) /\
    (forall x, In x t -> In x t').
Proof.
  intros getTime captured data m nowMs nowIso s A t t'. subst t t'.
  rewrite (resume_confirmed_messages getTime captured data nowMs nowIso s A).
  pose proof (appendSorted_perm getTime m (messages s)) as P.
  fold (reconcile getTime m (messages s)) in P.
  split; [exact P|]. split; [|split].
  - rewrite (Permutation_length P), length_app. cbn. lia.
  - rewrite (copies_perm (msg_id m) P). apply copies_snoc.
  - intros x Hx. apply Permutation_in with (l := (messages s ++ [m])%list).
    + now symmetry.
    + apply in_or_app. now left.
Qed.

Lemma confirmation_is_appended_witness :
  let s0 := setInputMessage "hi" (handleThreadSelect "t1" (initialState None)) in
  let s1 := handleSendMessage IsoDate.getTime 1704067205000 "2024-01-01T00:00:05.000Z"
              (SendResponse (helloData "t1")) 1704067206000 "2024-01-01T00:00:06.000Z" s0 in
  let s2 := handleSendMessage_resume IsoDate.getTime s0 (SendResponse (helloData "t1"))
              1704067207000 "2024-01-01T00:00:07.000Z" s1 in
  copies "m1" (messages s2) = S (copies "m1" (messages s1)) /\
  List.length (messages s2) = S (List.length (messages s1)).
Proof.
  pose (s0 := setInputMessage "hi" (handleThreadSelect "t1" (initialState None))).
  pose (s1 := handleSendMessage IsoDate.getTime 1704067205000 "2024-01-01T00:00:05.000Z"
                (SendResponse (helloData "t1")) 1704067206000 "2024-01-01T00:00:06.000Z" s0).
  destruct (confirmation_is_appended IsoDate.getTime s0 (helloData "t1")
              1704067207000 "2024-01-01T00:00:07.000Z" s1 eq_refl)
    as (_ & L & C & _).
  split; [exact C | exact L].
Defined.

(** C5 as stated fails: the confirmation "m1" applied twice is in the
    timeline twice, and the optimistic turn keeps its provisional id
    after the confirmation of the exchange. *)
Lemma duplicate_confirmation_is_kept_twice :
  let s0 := setInputMessage "hi" (handleThreadSelect "t1" (initialState None)) in
  let s1 := handleSendMessage IsoDate.getTime 1704067205000 "2024-01-01T00:00:05.000Z"
              (SendResponse (helloData "t1")) 1704067206000 "2024-01-01T00:00:06.000Z" s0 in
  let s2 := handleSendMessage_resume IsoDate.getTime s0 (SendResponse (helloData "t1"))
              1704067207000 "2024-01-01T00:00:07.000Z" s1 in
  map msg_id (messages s1) = ["msg-1704067205000"; "m1"] /\
  map msg_id (messages s2) = ["msg-1704067205000"; "m1"; "m1"] /\
  copies "m1" (messages s2) = 2%nat.
Proof. vm_compute. repeat split. Qed.

(** * Late results *)

(** C2 as stated fails.  The history of the superseded thread "t1"
    arriving after the optimistic insert empties the timeline of "t2",
    and the confirmation of a send made in "t1" arriving when "t2" is
    current is put on the timeline of "t2". *)
Lemma late_results_are_not_discarded :
  (let s := switchedAndSent in
   let s' := loadMessages_resume byteCompare "t1" emptyHistory noClock s in
   currentThreadId s = Some "t2" /\
   map displayText (messages s) = ["hi"] /\
   messages s' = [] /\ currentThreadId s' = Some "t2") /\
  (let captured := fst sentThenSwitched in
   let s := snd sentThenSwitched in
   let s' := handleSendMessage_resume IsoDate.getTime captured
               (SendResponse (helloData "t1")) 1704067206000
               "2024-01-01T00:00:06.000Z" s in
   currentThreadId captured = Some "t1" /\ currentThreadId s = Some "t2" /\
   messages s = [] /\
   map displayText (messages s') = ["hello!"] /\ currentThreadId s' = Some "t2").
Proof. vm_compute. repeat split. Qed.

(** C2, as amended.  A remote result is applied to the state that is
    current when it arrives, whatever thread its request was made for:
    a 2xx history answer with a list of turns replaces the timeline by
    these turns, and a confirmed send puts its assistant turn on the
    timeline.  Neither continuation looks at the current thread id. *)
Theorem late_results_are_applied :
  forall getTime localeCompare,
    (forall threadId status l clock s,
       response_ok status = true ->
       messages (loadMessages_resume localeCompare threadId
                   (LoadResponse status (mkLoadData true (Some l))) clock s)
       = hydrate localeCompare clock l) /\
    (forall captured data m nowMs nowIso s,
       aiMessage data nowMs nowIso = Some m ->
       messages (handleSendMessage_resume getTime captured (SendResponse data)
                   nowMs nowIso s)
       = reconcile getTime m (messages s)).
Proof.
  intros getTime localeCompare. split.
  - intros threadId status l clock s Hok. unfold loadMessages_resume.
    assert (E : (status =? 404) = false).
    { unfold response_ok in Hok. apply andb_true_iff in Hok. lia. }
    rewrite E, Hok. reflexivity.
  - intros captured data m nowMs nowIso s A.
    now apply resume_confirmed_messages.
Qed.

Lemma late_results_are_applied_witness :
  messages (loadMessages_resume byteCompare "t1" emptyHistory noClock switchedAndSent) = [] /\
  map displayText
    (messages (handleSendMessage_resume IsoDate.getTime (fst sentThenSwitched)
                 (SendResponse (helloData "t1")) 1704067206000
                 "2024-01-01T00:00:06.000Z" (snd sentThenSwitched)))
  = ["hello!"].
Proof.
  destruct (late_results_are_applied IsoDate.getTime byteCompare) as [Hl Hs].
  split.
  - unfold emptyHistory.
    rewrite (Hl "t1" 200 [] noClock switchedAndSent eq_refl). reflexivity.
  - rewrite (Hs (fst sentThenSwitched) (helloData "t1") _ 1704067206000
               "2024-01-01T00:00:06.000Z" (snd sentThenSwitched) eq_refl).
    reflexivity.
Defined.

(** * Order of the timeline *)

Section Order.
Variable getTime : string -> option Z.

Local Abbreviation turnLe := (turnLe getTime).
Local Abbreviation turnGe := (turnGe getTime).
Local Abbreviation canonical := (canonical getTime).

Lemma canonical_incl (l l' : list Message) :
  incl l' l -> canonical l -> canonical l'.
Proof.
  intros I [V J]. split.
  - intros m Hm. apply V, I, Hm.
  - intros a b Ha Hb. apply J; apply I; assumption.
Qed.

Lemma rank_bounds (m : Message) : 0 <= rank m <= 1.
Proof. unfold rank. destruct (is_user m); lia. Qed.

Lemma turnLe_trans (a b c : Message) : turnLe a b -> turnLe b c -> turnLe a c.
Proof.
  unfold turnLe.
  destruct (getTime (msg_timestamp a)), (getTime (msg_timestamp b)),
    (getTime (msg_timestamp c)); try tauto. lia.
Qed.

(** What one answer of the comparator tells about two turns with
    canonical timestamps. *)
Lemma order_decides (y x : Message) :
  canonical [y; x] ->
  if JsArray.order (compareTurns getTime) y x >? 0 then turnLe x y else turnLe y x.
Proof.
  intros [V J].
  assert (Vy := V y (or_introl eq_refl)).
  assert (Vx := V x (or_intror (or_introl eq_refl))).
  assert (Jyx := J y x (or_introl eq_refl) (or_intror (or_introl eq_refl))).
  unfold JsArray.order, compareTurns, turnLe.
  pose proof (rank_bounds x) as Bx. pose proof (rank_bounds y) as By.
  destruct (msg_timestamp y =? msg_timestamp x)%string eqn:E.
  - apply String.eqb_eq in E. rewrite E in *.
    destruct (getTime (msg_timestamp x)) as [t|]; [|congruence].
    unfold rank in *. destruct (is_user y); cbn; lia.
  - apply String.eqb_neq in E.
    destruct (getTime (msg_timestamp y)) as [ty|]; [|congruence].
    destruct (getTime (msg_timestamp x)) as [tx|]; [|congruence].
    assert (ty <> tx) by (intro; subst; now apply E, Jyx).
    destruct (Z.gtb_spec (ty - tx) 0); lia.
Qed.

Lemma sift_descending (x : Message) (r : list Message) :
  canonical (x :: r) ->
  StronglySorted turnGe r ->
  StronglySorted turnGe (JsArray.sift (compareTurns getTime) x r).
Proof.
  induction r as [|y r IH]; intros C S; cbn.
  - repeat constructor.
  - assert (Cyx : canonical [y; x]).
    { apply canonical_incl with (l := x :: y :: r); [|exact C].
      intros m [<-|[<-|[]]]; cbn; tauto. }
    pose proof (order_decides Cyx) as D.
    apply StronglySorted_inv in S. destruct S as [S F].
    destruct (JsArray.order (compareTurns getTime) y x >? 0).
    + constructor.
      * apply IH; [|exact S].
        apply canonical_incl with (l := x :: y :: r); [|exact C].
        intros m [<-|Hm]; cbn; tauto.
      * apply (Permutation_Forall (Permutation_sym (sift_perm (compareTurns getTime) x r))).
        constructor; [exact D | exact F].
    + constructor; [constructor; assumption|].
      constructor; [exact D|].
      apply Forall_impl with (P := turnGe y); [|exact F].
      intros b Hb. unfold turnGe in *. now apply turnLe_trans with (b := y).
Qed.

Lemma fold_sift_descending (l acc : list Message) :
  canonical (l ++ acc) ->
  StronglySorted turnGe acc ->
  StronglySorted turnGe
    (fold_left (fun r e => JsArray.sift (compareTurns getTime) e r) l acc).
Proof.
  revert acc. induction l as [|x l IH]; intros acc C S; cbn.
  - exact S.
  - apply IH.
    + apply canonical_incl with (l := ((x :: l) ++ acc)%list); [|exact C].
      intros m Hm. apply in_app_or in Hm. destruct Hm as [Hm|Hm].
      * cbn. right. apply in_or_app. now left.
      * apply (Permutation_in _ (sift_perm (compareTurns getTime) x acc)) in Hm.
        destruct Hm as [<-|Hm]; cbn; [now left|].
        right. apply in_or_app. now right.
    + apply sift_descending; [|exact S].
      apply canonical_incl with (l := ((x :: l) ++ acc)%list); [|exact C].
      intros m [<-|Hm]; cbn; [now left|]. right. apply in_or_app. now right.
Qed.

Lemma descending_rev (r : list Message) :
  StronglySorted turnGe r -> StronglySorted turnLe (rev r).
Proof.
  induction 1 as [|a r S IH F]; cbn; [constructor|].
  revert IH. apply Forall_rev in F. generalize dependent (rev r).
  induction l as [|b l IHl]; intros F IH; cbn.
  - repeat constructor.
  - apply StronglySorted_inv in IH. destruct IH as [IH Fb].
    apply Forall_inv_tail in F as Ft. apply Forall_inv in F.
    constructor; [now apply IHl|].
    apply Forall_app. split; [exact Fb|]. now constructor.
Qed.

(** On canonical timestamps the sort of the timeline orders it. *)
Lemma sort_orders (l : list Message) :
  canonical l -> StronglySorted turnLe (JsArray.sort (compareTurns getTime) l).
Proof.
  intro C. unfold JsArray.sort. apply descending_rev.
  apply fold_sift_descending; [now rewrite app_nil_r | constructor].
Qed.

Lemma ordered_promptFirst (t : list Message) :
  StronglySorted turnLe t -> promptFirst t.
Proof.
  induction 1 as [|a t S IH F]; [constructor|].
  constructor; [|exact IH].
  apply Forall_impl with (P := turnLe a); [|exact F].
  intros u L (Ha & Hu & E). unfold turnLe in L. rewrite E in L.
  destruct (getTime (msg_timestamp u)); [|exact L].
  unfold rank in L. rewrite Hu in L.
  unfold is_assistant, is_user, role_is in *.
  destruct (msg_role a) as [r|]; [|discriminate].
  apply String.eqb_eq in Ha. subst r. cbn in L. lia.
Qed.

Lemma runOps_perm (ops : list TimelineOp) (t : list Message) :
  Permutation (runOps getTime ops t) (t ++ map turnOf ops).
Proof.
  revert t. induction ops as [|op ops IH]; intro t.
  - cbn. now rewrite app_nil_r.
  - change (runOps getTime (op :: ops) t)
      with (runOps getTime ops (applyOp getTime t op)).
    rewrite IH.
    assert (P : Permutation (applyOp getTime t op) (t ++ [turnOf op])).
    { destruct op; apply appendSorted_perm. }
    rewrite P. cbn. now rewrite <- app_assoc.
Qed.

(** The order invariant on canonical timestamps: whatever inserts and
    reconciliations are run from the empty timeline, the result is
    ordered by (instant, role) and no reply stands before a prompt of
    its timestamp. *)
Theorem runOps_ordered_when_canonical (ops : list TimelineOp) :
  canonical (map turnOf ops) ->
  StronglySorted turnLe (runOps getTime ops []) /\
  promptFirst (runOps getTime ops []).
Proof.
  intro C.
  assert (S : StronglySorted turnLe (runOps getTime ops [])).
  { destruct ops as [|op ops] using rev_ind; [constructor|].
    unfold runOps. rewrite fold_left_app. cbn.
    fold (runOps getTime ops []).
    assert (Cl : canonical (runOps getTime ops [] ++ [turnOf op])).
    { apply canonical_incl with (l := map turnOf (ops ++ [op])); [|exact C].
      intros m Hm. rewrite map_app. cbn.
      apply in_app_or in Hm. apply in_or_app. destruct Hm as [Hm|Hm]; [left|now right].
      apply (Permutation_in _ (runOps_perm ops [])) in Hm. exact Hm. }
    destruct op; apply sort_orders; exact Cl. }
  split; [exact S | now apply ordered_promptFirst].
Qed.

End Order.

(** The invariant at work: a reply stamped with the very string of its
    prompt, reconciled first, ends behind the prompt. *)
Example prompt_first_on_equal_strings :
  let ops := [Reconcile firstReply; InsertOptimistic nextPrompt] in
  runOps IsoDate.getTime ops [] = [nextPrompt; firstReply] /\
  promptFirst (runOps IsoDate.getTime ops []).
Proof.
  split; [vm_compute; reflexivity|].
  apply runOps_ordered_when_canonical. split.
  - intros m [<-|[<-|[]]]; vm_compute; discriminate.
  - intros a b [<-|[<-|[]]] [<-|[<-|[]]] _; reflexivity.
Qed.

(** C1, on the input where the code departs from it.  The comparator
    puts the user turn first only when the two timestamp strings are
    identical, and otherwise answers the difference of the instants,
    which is 0 for two spellings of one instant.  After the two
    reconciliations and the insert, [firstReply] stands before
    [nextPrompt] although both carry the timestamp
    "2024-01-01T00:00:05.000Z".  Through the handlers: an answer stamped
    "2024-01-01T00:00:05Z" stays before the prompt sent at
    "2024-01-01T00:00:05.000Z", the same instant. *)
Theorem reply_sorted_before_prompt :
  runOps IsoDate.getTime
    [Reconcile firstReply; Reconcile secondReply; InsertOptimistic nextPrompt] []
  = [firstReply; secondReply; nextPrompt] /\
  replyBeforePrompt firstReply nextPrompt /\
  ~ promptFirst
      (runOps IsoDate.getTime
         [Reconcile firstReply; Reconcile secondReply; InsertOptimistic nextPrompt] []) /\
  map (fun m => (msg_role m, msg_timestamp m)) (messages answeredThenAsked)
  = [(Some "user", "2024-01-01T00:00:04.000Z");
     (Some "assistant", "2024-01-01T00:00:05Z");
     (Some "user", "2024-01-01T00:00:05.000Z")] /\
  IsoDate.getTime "2024-01-01T00:00:05Z" = IsoDate.getTime "2024-01-01T00:00:05.000Z".
Proof.
  assert (E : runOps IsoDate.getTime
                [Reconcile firstReply; Reconcile secondReply; InsertOptimistic nextPrompt] []
              = [firstReply; secondReply; nextPrompt]) by (vm_compute; reflexivity).
  assert (B : replyBeforePrompt firstReply nextPrompt) by (repeat split).
  split; [exact E|]. split; [exact B|]. split; [|split; vm_compute; reflexivity].
  rewrite E. intro P. inversion P as [|a l F _]; subst.
  apply Forall_inv_tail, Forall_inv in F. exact (F B).
Qed.
